(** * The color ingestion script ([src/script.ts])

    A shallow embedding of the per-row pipeline ([readColorRow],
    [validRawColor], [prepColorEntry], [saveColorEntry]) and of the batch
    driver ([getColorRows], [runFullScript]), followed by the properties
    the specification states about them.

    Conventions of the embedding.
    - A JavaScript string is the list of its UTF-16 code units, so that
      [length] is the [.length] property.
    - A record field holds a run-time value ([jsval]): array destructuring
      yields [undefined] for a missing element whatever the declared type.
    - Asynchronous code is sequential here: the script awaits every promise
      before it goes on, so a rejected promise is a thrown error.
    - The embedding provider and the store are collaborators outside the
      script; they are parameters ([Clients]) acting on an opaque world, and
      every call, log line and pause is recorded in an event trace. *)

From Stdlib Require Import List NArith Arith Bool Lia.
From Stdlib Require String Ascii.
Import ListNotations String.StringSyntax.

Set Implicit Arguments.

(** ** JavaScript strings and values *)

Definition char16 := N.
Definition jsstring := list char16.

(** Code units of an ASCII literal. *)
Fixpoint lit (s : String.string) : jsstring :=
  match s with
  | String.EmptyString => []
  | String.String c s' => Ascii.N_of_ascii c :: lit s'
  end.

Arguments lit s%_string_scope.

Definition COMMA : char16 := 44%N.
Definition HASH : char16 := 35%N.
Definition NEWLINE : char16 := 10%N.

Fixpoint jsstring_eqb (a b : jsstring) : bool :=
  match a, b with
  | [], [] => true
  | x :: a', y :: b' => N.eqb x y && jsstring_eqb a' b'
  | _, _ => false
  end.

(** The values this script puts into a record field: strings (pieces of a
    split line), [undefined] (a missing piece) and booleans (a [===]). *)
Inductive jsval : Type :=
| VUndefined
| VBoolean (b : bool)
| VString (s : jsstring).

(** [s.split(sep)] for a one-unit separator: never empty, [""] gives [[""]]. *)
Fixpoint split (sep : char16) (s : jsstring) : list jsstring :=
  match s with
  | [] => [[]]
  | c :: s' =>
      if N.eqb c sep then [] :: split sep s'
      else match split sep s' with
           | [] => [[c]]
           | f :: fs => (c :: f) :: fs
           end
  end.

(** [arr[k]] as destructuring reads it. *)
Definition element (arr : list jsstring) (k : nat) : jsval :=
  match nth_error arr k with
  | Some s => VString s
  | None => VUndefined
  end.

(** [v === "..."] against a string literal. *)
Definition strict_eq_string (v : jsval) (s : jsstring) : bool :=
  match v with
  | VString t => jsstring_eqb t s
  | _ => false
  end.

(** [s.startsWith(c)] for a one-unit prefix. *)
Definition startsWith (s : jsstring) (c : char16) : bool :=
  match s with
  | x :: _ => N.eqb x c
  | [] => false
  end.

(** [s.replace(c, "")] with a string pattern: the first occurrence only. *)
Fixpoint replace_first (c : char16) (s : jsstring) : jsstring :=
  match s with
  | [] => []
  | x :: s' => if N.eqb x c then s' else x :: replace_first c s'
  end.

(** [s.slice(1)] and [s.slice(0, n)] on arrays, for [n >= 0]. *)
Definition slice_from_1 (A : Type) (l : list A) : list A := tl l.
Definition slice_0 (A : Type) (n : nat) (l : list A) : list A := firstn n l.

(** ** Records *)

Record RawColor : Type := mkRawColor {
  name : jsval;
  hex : jsval;
  is_good_name : jsval
}.

(** The fields [name], [hex] and [is_good_name] of a [PreppedColor] carry a
    prefix: a projection name is used once in a module. *)
Record PreppedColor : Type := mkPreppedColor {
  p_name : jsval;
  p_hex : jsval;
  p_is_good_name : jsval;
  embedding_openai_1536 : jsstring
}.

(** ** [readColorRow] *)

Definition readColorRow (rowText : jsstring) : RawColor :=
  let arr := split COMMA rowText in
  let isGoodName := element arr 2 in
  {| name := element arr 0;
     hex := element arr 1;
     is_good_name := VBoolean (strict_eq_string isGoodName (lit "x")) |}.

(** ** Optional numeric parameters

    [maxRows?: number] and [startRow?: number] are tested for truthiness:
    [undefined] and [0] are both falsy. *)

Definition truthy (n : option nat) : bool :=
  match n with
  | Some (S _) => true
  | _ => false
  end.

(** [n || d] *)
Definition or_default (n : option nat) (d : nat) : nat :=
  match n with
  | Some (S k) => S k
  | _ => d
  end.

(** ** [getColorRows]

    The text of the file is an argument: reading it is outside the pipeline. *)

Definition getColorRows (file : jsstring) (omitHeader : bool)
    (maxRows : option nat) : list jsstring :=
  let rows := split NEWLINE file in
  let contentRows := if omitHeader then slice_from_1 rows else rows in
  let returnRows :=
    if truthy maxRows
    then slice_0 (or_default maxRows 0) contentRows
    else contentRows in
  returnRows.

(** ** Errors and events

    An error object of a collaborator is kept by its message. *)

Definition ExtErr := jsstring.

Inductive Err : Type :=
| TypeError                         (* a property of [undefined], a call of a non-function *)
| InvalidRawColor (rawColor : RawColor)
                                    (* [new Error(`Invalid raw color: ${JSON.stringify(rawColor)}`)] *)
| External (e : ExtErr).            (* a promise rejected by a collaborator *)

Inductive Event : Type :=
| EmbeddingsCreate (input : jsval)  (* [clientOpenai.embeddings.create] is called *)
| Upsert (p : PreppedColor)         (* [clientSupabase.from("colors").upsert] is called *)
| ConsoleError (e : ExtErr)         (* [console.error(error)] in [saveColorEntry] *)
| LogSaved (n : jsval)              (* "Saved color entry" *)
| LogProcessing (total : nat)       (* "Processing n color entries..." *)
| LogAddingDelay (pos total : nat)  (* "Processed pos/total entries. Adding delay..." *)
| Delay (ms : nat)                  (* [await delay(ms)] *)
| LogRowError (pos : nat) (e : Err) (* "Error processing row pos:" *)
| LogCompleted.                     (* "Script completed!" *)

(** ** [validRawColor] *)

(** [v.length]: [undefined] has no properties, a boolean has no [length]. *)
Definition prop_length (v : jsval) : Err + option nat :=
  match v with
  | VUndefined => inl TypeError
  | VBoolean _ => inr None
  | VString s => inr (Some (length s))
  end.

(** Comparisons of a [.length] with a number; [undefined] compares false. *)
Definition num_gt (l : option nat) (k : nat) : bool :=
  match l with Some n => k <? n | None => false end.
Definition num_lt (l : option nat) (k : nat) : bool :=
  match l with Some n => n <? k | None => false end.
Definition num_eq (l : option nat) (k : nat) : bool :=
  match l with Some n => n =? k | None => false end.

(** [v.startsWith(c)] *)
Definition method_startsWith (v : jsval) (c : char16) : Err + bool :=
  match v with
  | VString s => inr (startsWith s c)
  | _ => inl TypeError
  end.

(** [typeof v === "boolean"] *)
Definition typeof_boolean (v : jsval) : bool :=
  match v with
  | VBoolean _ => true
  | _ => false
  end.

Definition validRawColor (rawColor : RawColor) : Err + bool :=
  match prop_length (name rawColor) with
  | inl e => inl e
  | inr nameLength =>
      let validName := num_gt nameLength 0 && num_lt nameLength 100 in
      match prop_length (hex rawColor) with
      | inl e => inl e
      | inr hexLength =>
          match (if num_eq hexLength 7
                 then method_startsWith (hex rawColor) HASH
                 else inr false) with
          | inl e => inl e
          | inr validHex =>
              let validIsGoodName := typeof_boolean (is_good_name rawColor) in
              inr (validName && validHex && validIsGoodName)
          end
      end
  end.

(** [v.replace(c, "")] *)
Definition method_replace (v : jsval) (c : char16) : Err + jsval :=
  match v with
  | VString s => inr (VString (replace_first c s))
  | _ => inl TypeError
  end.

Section Script.

(** The provider's vector and the state of the outside world. *)
Variables (Embedding W : Type).

(** [JSON.stringify] of a vector of floats. *)
Variable JSON_stringify : Embedding -> jsstring.

(** ** The effect monad

    A computation reads and updates the world, emits events in order, and
    either returns or throws. *)
Definition M (A : Type) : Type := W -> (Err + A) * W * list Event.

Definition ret (A : Type) (a : A) : M A := fun w => (inr a, w, []).
Definition throw (A : Type) (e : Err) : M A := fun w => (inl e, w, []).
Arguments throw {A} e.

Definition bind (A B : Type) (m : M A) (f : A -> M B) : M B :=
  fun w =>
    match m w with
    | (inl e, w1, t1) => (inl e, w1, t1)
    | (inr a, w1, t1) =>
        match f a w1 with
        | (r, w2, t2) => (r, w2, t1 ++ t2)
        end
    end.

Definition try_catch (A : Type) (m : M A) (h : Err -> M A) : M A :=
  fun w =>
    match m w with
    | (inl e, w1, t1) =>
        match h e w1 with
        | (r, w2, t2) => (r, w2, t1 ++ t2)
        end
    | (inr a, w1, t1) => (inr a, w1, t1)
    end.

Definition emit (ev : Event) : M unit := fun w => (inr tt, w, [ev]).

Notation "x <- m ;; k" := (bind m (fun x => k))
  (at level 61, m at next level, right associativity).
Notation "m ;;; k" := (bind m (fun _ => k))
  (at level 61, right associativity).

(** ** The collaborators *)

Record Clients : Type := mkClients {
  (** [embeddings.create(...)] then [.data[0].embedding]: a vector, or a
      rejection. *)
  embeddings_create : jsval -> W -> (ExtErr + Embedding) * W;
  (** [upsert(record, { onConflict: "name" })]: resolves to [{ error }]
      ([None] is success), or rejects. *)
  upsert : PreppedColor -> W -> (ExtErr + option ExtErr) * W
}.

Variable clients : Clients.

Definition lift (A : Type) (r : Err + A) : M A := fun w => (r, w, []).

Definition getEmbedding (inputText : jsval) : M Embedding :=
  fun w =>
    match embeddings_create clients inputText w with
    | (inl e, w1) => (inl (External e), w1, [EmbeddingsCreate inputText])
    | (inr v, w1) => (inr v, w1, [EmbeddingsCreate inputText])
    end.

(** ** [prepColorEntry] *)

Definition prepColorEntry (rawColor : RawColor) : M PreppedColor :=
  valid <- lift (validRawColor rawColor) ;;
  if negb valid then throw (InvalidRawColor rawColor)
  else
    embeddingSmall <- getEmbedding (name rawColor) ;;
    noHashHex <- lift (method_replace (hex rawColor) HASH) ;;
    ret {| p_name := name rawColor;
           p_hex := noHashHex;
           p_is_good_name := is_good_name rawColor;
           embedding_openai_1536 := JSON_stringify embeddingSmall |}.

(** ** [saveColorEntry] *)

Definition call_upsert (p : PreppedColor) : M (option ExtErr) :=
  fun w =>
    match upsert clients p w with
    | (inl e, w1) => (inl (External e), w1, [Upsert p])
    | (inr r, w1) => (inr r, w1, [Upsert p])
    end.

Definition saveColorEntry (preppedColor : PreppedColor) : M unit :=
  error <- call_upsert preppedColor ;;
  match error with
  | Some e => emit (ConsoleError e)
  | None => emit (LogSaved (p_name preppedColor))
  end.

(** ** [runFullScript] *)

Definition delay (ms : nat) : M unit := emit (Delay ms).

(** One turn of the [for] loop: the [try] block and its [catch]. *)
Definition loop_body (colorRows : list jsstring) (i : nat) : M unit :=
  let row := nth_error colorRows i in
  try_catch
    (rawColor <- match row with
                 | Some rowText => ret (readColorRow rowText)
                 | None => throw TypeError
                 end ;;
     preppedColor <- prepColorEntry rawColor ;;
     saveColorEntry preppedColor ;;;
     if (i + 1) mod 10 =? 0
     then emit (LogAddingDelay (i + 1) (length colorRows)) ;;; delay 200
     else ret tt)
    (fun error => emit (LogRowError (i + 1) error)).

(** [for (let i = ...; i < colorRows.length; i++)] from index [i].  The loop
    ends by its test; [fuel] only bounds the number of turns, and
    [length colorRows] turns are always enough ([for_loop_spec]). *)
Fixpoint for_loop (colorRows : list jsstring) (fuel i : nat) : M unit :=
  match fuel with
  | 0 => ret tt
  | S fuel' =>
      if i <? length colorRows
      then loop_body colorRows i ;;; for_loop colorRows fuel' (S i)
      else ret tt
  end.

Definition runFullScript (file : jsstring) (maxRows startRow : option nat)
    : M unit :=
  let colorRows := getColorRows file true maxRows in
  emit (LogProcessing (length colorRows)) ;;;
  for_loop colorRows (length colorRows) (or_default startRow 0) ;;;
  emit LogCompleted.

End Script.

Arguments ret {W A} a _.
Arguments throw {W A} e _.
Arguments emit {W} ev _.
Arguments lift {W A} r _.
Arguments delay {W} ms _.

(** ** Lines built from fields *)

(** [contains c s]: the unit [c] occurs in [s]. *)
Definition contains (c : char16) (s : jsstring) : bool :=
  existsb (fun x => N.eqb x c) s.

(** [fields.join(sep)] *)
Fixpoint join (sep : char16) (fields : list jsstring) : jsstring :=
  match fields with
  | [] => []
  | [f] => f
  | f :: fs => f ++ sep :: join sep fs
  end.

Definition comma_free (fields : list jsstring) : bool :=
  forallb (fun f => negb (contains COMMA f)) fields.

(** ** What one turn of the loop may leave in the trace *)

(** The pause taken after the row at index [i], if any. *)
Definition pause_events (i total : nat) : list Event :=
  if (i + 1) mod 10 =? 0
  then [LogAddingDelay (i + 1) total; Delay 200]
  else [].

Definition is_pause (ev : Event) : bool :=
  match ev with
  | LogAddingDelay _ _ | Delay _ => true
  | _ => false
  end.

(** The two ways a failure shows in the trace: the [catch] of the loop, and
    the error branch of [saveColorEntry]. *)
Definition is_failure (ev : Event) : bool :=
  match ev with
  | LogRowError _ _ | ConsoleError _ => true
  | _ => false
  end.

Definition is_row_error (ev : Event) : bool :=
  match ev with
  | LogRowError _ _ => true
  | _ => false
  end.

Definition is_saved (ev : Event) : bool :=
  match ev with
  | LogSaved _ => true
  | _ => false
  end.

(** The trace of a run. *)
Definition trace_of (W A : Type) (r : (Err + A) * W * list Event) : list Event :=
  snd r.

(** [encodes rawColor p]: [p] is [rawColor] with its marker stripped. *)
Definition encodes (rawColor : RawColor) (p : PreppedColor) : Prop :=
  p_name p = name rawColor
  /\ p_is_good_name p = is_good_name rawColor
  /\ exists h6, length h6 = 6 /\ hex rawColor = VString (HASH :: h6)
                /\ p_hex p = VString h6.

(** The six courses a row at index [i] can take, by the events it leaves:
    validation throws; validation rejects; the provider rejects; the upsert
    rejects; the store reports an error; the row is saved. *)
Inductive row_trace (total i : nat) (rowText : jsstring) : list Event -> Prop :=
| RT_validation_throws (e : Err) :
    validRawColor (readColorRow rowText) = inl e ->
    row_trace total i rowText [LogRowError (i + 1) e]
| RT_rejected :
    validRawColor (readColorRow rowText) = inr false ->
    row_trace total i rowText
      [LogRowError (i + 1) (InvalidRawColor (readColorRow rowText))]
| RT_provider_rejects (e : ExtErr) :
    validRawColor (readColorRow rowText) = inr true ->
    row_trace total i rowText
      [EmbeddingsCreate (name (readColorRow rowText));
       LogRowError (i + 1) (External e)]
| RT_upsert_rejects (p : PreppedColor) (e : ExtErr) :
    validRawColor (readColorRow rowText) = inr true ->
    encodes (readColorRow rowText) p ->
    row_trace total i rowText
      [EmbeddingsCreate (name (readColorRow rowText)); Upsert p;
       LogRowError (i + 1) (External e)]
| RT_store_reports (p : PreppedColor) (e : ExtErr) :
    validRawColor (readColorRow rowText) = inr true ->
    encodes (readColorRow rowText) p ->
    row_trace total i rowText
      ([EmbeddingsCreate (name (readColorRow rowText)); Upsert p;
        ConsoleError e] ++ pause_events i total)
| RT_saved (p : PreppedColor) :
    validRawColor (readColorRow rowText) = inr true ->
    encodes (readColorRow rowText) p ->
    row_trace total i rowText
      ([EmbeddingsCreate (name (readColorRow rowText)); Upsert p;
        LogSaved (p_name p)] ++ pause_events i total).

(** The trace of the row at index [i] of [colorRows]. *)
Definition row_trace_at (colorRows : list jsstring) (i : nat)
    (t : list Event) : Prop :=
  exists rowText,
    nth_error colorRows i = Some rowText
    /\ row_trace (length colorRows) i rowText t.

(** ** Readings of a file and of a trace *)

(** The number of occurrences of the unit [c] in [s]. *)
Definition count_unit (c : char16) (s : jsstring) : nat :=
  length (filter (fun x => N.eqb x c) s).

(** A row on which [validRawColor] returns [true]. *)
Definition is_valid_row (rowText : jsstring) : bool :=
  match validRawColor (readColorRow rowText) with
  | inr true => true
  | _ => false
  end.

(** The event that ends the work on a row: a save, or a failure. *)
Definition is_outcome (ev : Event) : bool := is_saved ev || is_failure ev.

(** The inputs the provider was called with, in order. *)
Definition embedding_inputs (log : list Event) : list jsval :=
  flat_map (fun ev => match ev with
                      | EmbeddingsCreate input => [input]
                      | _ => []
                      end) log.

(** The records the store was called with, in order. *)
Definition upserts (log : list Event) : list PreppedColor :=
  flat_map (fun ev => match ev with
                      | Upsert p => [p]
                      | _ => []
                      end) log.

(** [subsequence l1 l2]: [l1] is [l2] with some elements left out. *)
Inductive subsequence (A : Type) : list A -> list A -> Prop :=
| subsequence_nil : subsequence [] []
| subsequence_skip (x : A) (l1 l2 : list A) :
    subsequence l1 l2 -> subsequence l1 (x :: l2)
| subsequence_keep (x : A) (l1 l2 : list A) :
    subsequence l1 l2 -> subsequence (x :: l1) (x :: l2).

(** [threaded step indices w w' ts]: the turns [step i], for [i] along
    [indices], are run one after the other from the world [w]; each returns
    normally, they leave the traces [ts] in this order and end in [w']. *)
Inductive threaded (W : Type)
    (step : nat -> W -> (Err + unit) * W * list Event)
    : list nat -> W -> W -> list (list Event) -> Prop :=
| threaded_nil (w : W) : threaded step [] w w []
| threaded_cons (i : nat) (indices : list nat) (w w1 w2 : W)
    (t : list Event) (ts : list (list Event)) :
    step i w = (inr tt, w1, t) ->
    threaded step indices w1 w2 ts ->
    threaded step (i :: indices) w w2 (t :: ts).

(** The pauses in the trace [t] of the turn at index [i]: none when the
    position [i + 1] is not a multiple of 10; when it is and the turn did not
    end in the [catch], the announced pause of 200 closes the turn and is its
    only pause. *)
Definition pause_rule (total i : nat) (t : list Event) : Prop :=
  ((i + 1) mod 10 <> 0 -> filter is_pause t = [])
  /\ ((i + 1) mod 10 = 0 ->
      existsb is_row_error t = false ->
      exists t0,
        t = t0 ++ [LogAddingDelay (i + 1) total; Delay 200]
        /\ filter is_pause t0 = []).

(** ** Sample collaborators and inputs *)

Module Sample.

(** A world that counts the calls it has served. *)
Definition World := nat.
Definition Vector := list nat.

Definition stringify (v : Vector) : jsstring := lit "[0.25,-0.5]".

(** Both collaborators always succeed. *)
Definition ok_clients : Clients Vector World :=
  {| embeddings_create := fun _ w => (inr [1; 2], S w);
     upsert := fun _ w => (inr None, S w) |}.

(** The provider rejects names that start with the unit [bad]. *)
Definition flaky_clients (bad : char16) : Clients Vector World :=
  {| embeddings_create := fun input w =>
       match input with
       | VString (c :: _) =>
           if N.eqb c bad then (inl (lit "quota exceeded"), S w)
           else (inr [1; 2], S w)
       | _ => (inr [1; 2], S w)
       end;
     upsert := fun _ w => (inr None, S w) |}.

(** The store reports an error on every upsert. *)
Definition refusing_clients : Clients Vector World :=
  {| embeddings_create := fun _ w => (inr [1; 2], S w);
     upsert := fun _ w => (inr (Some (lit "permission denied")), S w) |}.

(** A file: the header line, then the given rows, no final newline. *)
Definition file_of (rows : list jsstring) : jsstring :=
  join NEWLINE (lit "name,hex,good name" :: rows).

Definition red_row : jsstring := lit "Red,#ff0000,x".
Definition red : RawColor :=
  {| name := VString (lit "Red");
     hex := VString (lit "#ff0000");
     is_good_name := VBoolean true |}.
Definition red_prepped : PreppedColor :=
  {| p_name := VString (lit "Red");
     p_hex := VString (lit "ff0000");
     p_is_good_name := VBoolean true;
     embedding_openai_1536 := lit "[0.25,-0.5]" |}.

(** The store rejects every upsert. *)
Definition unreachable_store_clients : Clients Vector World :=
  {| embeddings_create := fun _ w => (inr [1; 2], S w);
     upsert := fun _ w => (inl (lit "connection reset"), S w) |}.


Definition blue_row : jsstring := lit "Blue,#0000ff,".
Definition nameless_row : jsstring := lit ",#ff0000,x".

(** [n] valid rows, then the given rows. *)
Definition valid_rows_then (n : nat) (rows : list jsstring) : list jsstring :=
  repeat red_row n ++ rows.

End Sample.

(** * Properties *)

Unset Implicit Arguments.

(** ** Strings *)

Lemma jsstring_eqb_eq (a b : jsstring) : jsstring_eqb a b = true <-> a = b.
Proof.
  revert b; induction a as [|x a IH]; intros [|y b]; simpl;
    try (split; [discriminate | congruence]); try tauto.
  rewrite andb_true_iff, N.eqb_eq, IH. split.
  - intros [-> ->]; reflexivity.
  - intros H; injection H; auto.
Qed.

Lemma split_not_nil (sep : char16) (s : jsstring) : split sep s <> [].
Proof.
  destruct s as [|c s]; simpl; [discriminate|].
  destruct (N.eqb c sep); [discriminate|].
  destruct (split sep s); discriminate.
Qed.

Lemma split_field_then_sep (sep : char16) (f s : jsstring) :
  contains sep f = false -> split sep (f ++ sep :: s) = f :: split sep s.
Proof.
  induction f as [|c f IH]; simpl; intros H.
  - rewrite N.eqb_refl; reflexivity.
  - apply orb_false_iff in H as [Hc Hf].
    rewrite Hc, (IH Hf); reflexivity.
Qed.

Lemma split_one_field (sep : char16) (f : jsstring) :
  contains sep f = false -> split sep f = [f].
Proof.
  induction f as [|c f IH]; simpl; intros H; [reflexivity|].
  apply orb_false_iff in H as [Hc Hf].
  rewrite Hc, (IH Hf); reflexivity.
Qed.

Lemma split_join (sep : char16) (fields : list jsstring) :
  fields <> [] ->
  forallb (fun f => negb (contains sep f)) fields = true ->
  split sep (join sep fields) = fields.
Proof.
  induction fields as [|f fs IH]; [congruence|].
  intros _ H. simpl in H. apply andb_true_iff in H as [Hf Hfs].
  apply negb_true_iff in Hf.
  destruct fs as [|g fs].
  - simpl. apply split_one_field; assumption.
  - change (join sep (f :: g :: fs)) with (f ++ sep :: join sep (g :: fs)).
    rewrite split_field_then_sep by assumption.
    rewrite IH by (assumption || discriminate). reflexivity.
Qed.

(** ** The row parser *)

Lemma readColorRow_of_fields (fields : list jsstring) :
  fields <> [] ->
  comma_free fields = true ->
  readColorRow (join COMMA fields) =
  {| name := element fields 0;
     hex := element fields 1;
     is_good_name := VBoolean (strict_eq_string (element fields 2) (lit "x")) |}.
Proof.
  intros Hne Hfree. unfold readColorRow.
  rewrite (split_join COMMA fields Hne Hfree). reflexivity.
Qed.

(** C7. A line made of exactly three comma-free fields parses, without
    failure, to the record whose name is the first field, whose hex is the
    second field with its marker still attached, and whose flag is [true]
    exactly when the third field is the token "x". *)
Theorem readColorRow_three_fields (f1 f2 f3 : jsstring) :
  comma_free [f1; f2; f3] = true ->
  readColorRow (f1 ++ COMMA :: f2 ++ COMMA :: f3) =
    {| name := VString f1;
       hex := VString f2;
       is_good_name := VBoolean (jsstring_eqb f3 (lit "x")) |}
  /\ (jsstring_eqb f3 (lit "x") = true <-> f3 = lit "x").
Proof.
  intros Hfree. split.
  - change (f1 ++ COMMA :: f2 ++ COMMA :: f3) with (join COMMA [f1; f2; f3]).
    rewrite readColorRow_of_fields by (assumption || discriminate).
    reflexivity.
  - apply jsstring_eqb_eq.
Qed.

Lemma readColorRow_three_fields_witness :
  comma_free [lit "Red"; lit "#ff0000"; lit "x"] = true
  /\ readColorRow (lit "Red,#ff0000,x") =
     {| name := VString (lit "Red");
        hex := VString (lit "#ff0000");
        is_good_name := VBoolean true |}.
Proof.
  split; [reflexivity|].
  exact (proj1 (readColorRow_three_fields
                  (lit "Red") (lit "#ff0000") (lit "x") eq_refl)).
Defined.

Example readColorRow_flag_mismatch :
  readColorRow (lit "Red,#ff0000,") =
  {| name := VString (lit "Red");
     hex := VString (lit "#ff0000");
     is_good_name := VBoolean false |}.
Proof. reflexivity. Qed.

(** C9. The parser is a total function of the line.  On a line of comma-free
    fields it keeps the first three and drops the rest; with fewer than three
    fields the missing ones are [undefined] and the flag is [false]. *)
Theorem readColorRow_any_field_count (fields : list jsstring) :
  fields <> [] ->
  comma_free fields = true ->
  readColorRow (join COMMA fields) =
    {| name := element fields 0;
       hex := element fields 1;
       is_good_name := VBoolean (strict_eq_string (element fields 2) (lit "x")) |}
  /\ readColorRow (join COMMA fields) = readColorRow (join COMMA (firstn 3 fields))
  /\ (length fields < 3 -> is_good_name (readColorRow (join COMMA fields)) = VBoolean false)
  /\ (length fields < 2 -> hex (readColorRow (join COMMA fields)) = VUndefined)
  /\ (exists f, name (readColorRow (join COMMA fields)) = VString f).
Proof.
  intros Hne Hfree.
  assert (Hrec := readColorRow_of_fields fields Hne Hfree).
  assert (Hfirst : readColorRow (join COMMA (firstn 3 fields)) =
                   readColorRow (join COMMA fields)).
  { rewrite Hrec.
    rewrite readColorRow_of_fields.
    - destruct fields as [|a [|b [|c rest]]]; reflexivity.
    - destruct fields; [congruence | discriminate].
    - unfold comma_free in *.
      rewrite forallb_forall in *. intros f Hin. apply Hfree.
      rewrite <- (firstn_skipn 3 fields). apply in_or_app; left; exact Hin. }
  rewrite Hrec. repeat split.
  - rewrite Hfirst, Hrec; reflexivity.
  - intros Hlen. destruct fields as [|a [|b [|c rest]]]; simpl in *;
      try reflexivity; lia.
  - intros Hlen. destruct fields as [|a [|b rest]]; simpl in *;
      try reflexivity; try congruence; lia.
  - destruct fields as [|a rest]; [congruence|]. exists a; reflexivity.
Qed.

Lemma readColorRow_any_field_count_witness :
  readColorRow (lit "Red,#ff0000,x,extra,more") = readColorRow (lit "Red,#ff0000,x").
Proof.
  exact (proj1 (proj2 (readColorRow_any_field_count
    [lit "Red"; lit "#ff0000"; lit "x"; lit "extra"; lit "more"]
    ltac:(discriminate) eq_refl))).
Defined.

Example readColorRow_two_fields :
  readColorRow (lit "Red,#ff0000") =
  {| name := VString (lit "Red");
     hex := VString (lit "#ff0000");
     is_good_name := VBoolean false |}.
Proof. reflexivity. Qed.

Example readColorRow_empty_line :
  readColorRow [] =
  {| name := VString []; hex := VUndefined; is_good_name := VBoolean false |}.
Proof. reflexivity. Qed.

(** ** The validator *)

Lemma validRawColor_strings (n h : jsstring) (flag : jsval) :
  validRawColor {| name := VString n; hex := VString h; is_good_name := flag |} =
  inr ((0 <? length n) && (length n <? 100)
       && ((length h =? 7) && startsWith h HASH)
       && typeof_boolean flag).
Proof.
  unfold validRawColor; simpl.
  destruct (length h =? 7); simpl; [reflexivity|].
  rewrite !andb_false_r. reflexivity.
Qed.

Lemma validRawColor_true_iff (rawColor : RawColor) :
  validRawColor rawColor = inr true <->
  exists n h b,
    name rawColor = VString n /\ hex rawColor = VString h
    /\ is_good_name rawColor = VBoolean b
    /\ 1 <= length n < 100 /\ length h = 7 /\ startsWith h HASH = true.
Proof.
  destruct rawColor as [[| |n] [| |h] flag];
    try (split; [unfold validRawColor; simpl; try discriminate
                | intros (n' & h' & b' & H1 & H2 & _); simpl in *; discriminate]).
  - destruct (length h =? 7); discriminate.
  - rewrite andb_false_r; discriminate.
  - rewrite validRawColor_strings. simpl name; simpl hex; simpl is_good_name.
    split.
    + intros H. injection H as H.
      apply andb_true_iff in H as [H Hflag].
      apply andb_true_iff in H as [Hn Hh].
      apply andb_true_iff in Hn as [Hn1 Hn2].
      apply andb_true_iff in Hh as [Hh1 Hh2].
      apply Nat.ltb_lt in Hn1, Hn2. apply Nat.eqb_eq in Hh1.
      destruct flag as [|b|]; try discriminate.
      exists n, h, b. repeat split; auto; lia.
    + intros (n' & h' & b' & H1 & H2 & H3 & Hn & Hh & Hs).
      injection H1 as <-. injection H2 as <-. subst flag.
      f_equal.
      destruct Hn as [Hn1 Hn2].
      apply Nat.ltb_lt in Hn1, Hn2. apply Nat.eqb_eq in Hh.
      rewrite Hn1, Hn2, Hh, Hs. reflexivity.
Qed.

(** A validated hex is the marker followed by six units. *)
Lemma valid_hex_shape (rawColor : RawColor) :
  validRawColor rawColor = inr true ->
  exists h6, hex rawColor = VString (HASH :: h6) /\ length h6 = 6.
Proof.
  intros H. apply validRawColor_true_iff in H.
  destruct H as (n & h & b & _ & Hh & _ & _ & Hlen & Hs).
  destruct h as [|c h6]; [discriminate|].
  simpl in Hs. apply N.eqb_eq in Hs. subst c.
  exists h6. split; [assumption|]. simpl in Hlen. lia.
Qed.

(** C6. Validation accepts a record exactly when its name is a string of
    length 1 to 99, its hex is a string of length 7 that starts with the
    marker, and its flag is a boolean.  In particular an empty or over-long
    name, and a hex of another length or without the marker, are rejected. *)
Theorem validRawColor_accepts_iff (rawColor : RawColor) :
  (validRawColor rawColor = inr true <->
   exists n h b,
     name rawColor = VString n /\ hex rawColor = VString h
     /\ is_good_name rawColor = VBoolean b
     /\ 1 <= length n < 100 /\ length h = 7 /\ startsWith h HASH = true)
  /\ (forall n h flag,
        rawColor = {| name := VString n; hex := VString h; is_good_name := flag |} ->
        length n = 0 \/ 100 <= length n \/ length h <> 7
          \/ startsWith h HASH = false ->
        validRawColor rawColor = inr false).
Proof.
  split; [apply validRawColor_true_iff|].
  intros n h flag -> H. rewrite validRawColor_strings. f_equal.
  destruct H as [H | [H | [H | H]]].
  - rewrite H. reflexivity.
  - apply Nat.ltb_ge in H. rewrite H, andb_false_r. reflexivity.
  - apply Nat.eqb_neq in H. rewrite H, andb_false_r. reflexivity.
  - rewrite H, !andb_false_r. reflexivity.
Qed.

Lemma validRawColor_accepts_iff_witness :
  validRawColor {| name := VString []; hex := VString (lit "#ff0000");
                   is_good_name := VBoolean true |} = inr false.
Proof.
  apply (proj2 (validRawColor_accepts_iff _) [] (lit "#ff0000") (VBoolean true) eq_refl).
  left; reflexivity.
Defined.

Example validRawColor_red : validRawColor Sample.red = inr true.
Proof. reflexivity. Qed.

Example validRawColor_short_hex :
  validRawColor {| name := VString (lit "Red"); hex := VString (lit "#ff000");
                   is_good_name := VBoolean true |} = inr false.
Proof. reflexivity. Qed.

Example validRawColor_no_marker :
  validRawColor {| name := VString (lit "Red"); hex := VString (lit "ff00000");
                   is_good_name := VBoolean true |} = inr false.
Proof. reflexivity. Qed.

Example validRawColor_undefined_hex :
  validRawColor (readColorRow (lit "Red")) = inl TypeError.
Proof. reflexivity. Qed.

(** C10. The parser only builds boolean flags, so the flag check of the
    validator always passes on a parsed record and the verdict is that of the
    name and hex fields alone. *)
Theorem validRawColor_of_parsed_row (rowText : jsstring) :
  (exists b, is_good_name (readColorRow rowText) = VBoolean b)
  /\ typeof_boolean (is_good_name (readColorRow rowText)) = true
  /\ (forall b,
        validRawColor (readColorRow rowText) =
        validRawColor {| name := name (readColorRow rowText);
                         hex := hex (readColorRow rowText);
                         is_good_name := VBoolean b |}).
Proof.
  split; [eexists; reflexivity|]. split; [reflexivity|].
  intros b. unfold validRawColor. simpl. reflexivity.
Qed.

Example validRawColor_flag_matters :
  validRawColor {| name := VString (lit "Red"); hex := VString (lit "#ff0000");
                   is_good_name := VString (lit "x") |} = inr false.
Proof. reflexivity. Qed.

(** ** The pipeline and the driver *)

Section Pipeline.

Variables (Embedding W : Type).
Variable JSON_stringify : Embedding -> jsstring.
Variable clients : Clients Embedding W.

Lemma prepColorEntry_unfold (rawColor : RawColor) (w : W) :
  prepColorEntry JSON_stringify clients rawColor w =
  match validRawColor rawColor with
  | inl e => (inl e, w, [])
  | inr false => (inl (InvalidRawColor rawColor), w, [])
  | inr true =>
      match embeddings_create clients (name rawColor) w with
      | (inl e, w1) => (inl (External e), w1, [EmbeddingsCreate (name rawColor)])
      | (inr v, w1) =>
          match method_replace (hex rawColor) HASH with
          | inl e => (inl e, w1, [EmbeddingsCreate (name rawColor)])
          | inr noHashHex =>
              (inr {| p_name := name rawColor;
                      p_hex := noHashHex;
                      p_is_good_name := is_good_name rawColor;
                      embedding_openai_1536 := JSON_stringify v |},
               w1, [EmbeddingsCreate (name rawColor)])
          end
      end
  end.
Proof.
  unfold prepColorEntry, bind, lift, getEmbedding.
  destruct (validRawColor rawColor) as [e|[|]]; simpl; try reflexivity.
  destruct (embeddings_create clients (name rawColor) w) as [[e|v] w1];
    simpl; try reflexivity.
  destruct (method_replace (hex rawColor) HASH); reflexivity.
Qed.

Lemma saveColorEntry_unfold (p : PreppedColor) (w : W) :
  saveColorEntry clients p w =
  match upsert clients p w with
  | (inl e, w1) => (inl (External e), w1, [Upsert p])
  | (inr (Some e), w1) => (inr tt, w1, [Upsert p; ConsoleError e])
  | (inr None, w1) => (inr tt, w1, [Upsert p; LogSaved (p_name p)])
  end.
Proof.
  unfold saveColorEntry, bind, call_upsert.
  destruct (upsert clients p w) as [[e|[e|]] w1]; reflexivity.
Qed.

(** A validated record is encoded once the provider has answered. *)
Lemma prepColorEntry_valid (rawColor : RawColor) (w : W) :
  validRawColor rawColor = inr true ->
  (exists e w1,
      embeddings_create clients (name rawColor) w = (inl e, w1)
      /\ prepColorEntry JSON_stringify clients rawColor w =
         (inl (External e), w1, [EmbeddingsCreate (name rawColor)]))
  \/ (exists v w1 p,
      embeddings_create clients (name rawColor) w = (inr v, w1)
      /\ prepColorEntry JSON_stringify clients rawColor w =
         (inr p, w1, [EmbeddingsCreate (name rawColor)])
      /\ encodes rawColor p
      /\ embedding_openai_1536 p = JSON_stringify v).
Proof.
  intros Hvalid. rewrite prepColorEntry_unfold, Hvalid.
  destruct (embeddings_create clients (name rawColor) w) as [[e|v] w1].
  - left. exists e, w1. split; reflexivity.
  - right. destruct (valid_hex_shape rawColor Hvalid) as (h6 & Hhex & Hlen).
    rewrite Hhex. cbn [method_replace replace_first]. rewrite N.eqb_refl.
    eexists v, w1, _. split; [reflexivity|]. split; [reflexivity|].
    split; [|reflexivity].
    unfold encodes; simpl. repeat split.
    exists h6. repeat split; assumption.
Qed.

(** One turn of the loop never throws, and leaves one of the six traces. *)
Lemma loop_body_spec (colorRows : list jsstring) (i : nat)
    (rowText : jsstring) (w : W) :
  nth_error colorRows i = Some rowText ->
  exists w' t,
    loop_body JSON_stringify clients colorRows i w = (inr tt, w', t)
    /\ row_trace (length colorRows) i rowText t.
Proof.
  intros Hrow. unfold loop_body, try_catch, bind. rewrite Hrow.
  unfold ret at 1. cbv beta iota.
  destruct (validRawColor (readColorRow rowText)) as [e|[|]] eqn:Hvalid.
  - rewrite prepColorEntry_unfold, Hvalid. cbv beta iota.
    exists w, [LogRowError (i + 1) e].
    split; [reflexivity | constructor; assumption].
  - destruct (prepColorEntry_valid (readColorRow rowText) w Hvalid)
      as [(e & w1 & _ & Hprep) | (v & w1 & p & _ & Hprep & Henc & _)];
      rewrite Hprep; cbv beta iota.
    + exists w1, [EmbeddingsCreate (name (readColorRow rowText));
                  LogRowError (i + 1) (External e)].
      split; [reflexivity | constructor; assumption].
    + rewrite saveColorEntry_unfold.
      destruct (upsert clients p w1) as [[e|[e|]] w2]; cbv beta iota.
      * exists w2, [EmbeddingsCreate (name (readColorRow rowText)); Upsert p;
                    LogRowError (i + 1) (External e)].
        split; [reflexivity | constructor; assumption].
      * exists w2, ([EmbeddingsCreate (name (readColorRow rowText)); Upsert p;
                     ConsoleError e] ++ pause_events i (length colorRows)).
        split; [| constructor; assumption].
        unfold pause_events.
        destruct ((i + 1) mod 10 =? 0); reflexivity.
      * exists w2, ([EmbeddingsCreate (name (readColorRow rowText)); Upsert p;
                     LogSaved (p_name p)] ++ pause_events i (length colorRows)).
        split; [| constructor; assumption].
        unfold pause_events.
        destruct ((i + 1) mod 10 =? 0); reflexivity.
  - rewrite prepColorEntry_unfold, Hvalid. cbv beta iota.
    exists w, [LogRowError (i + 1) (InvalidRawColor (readColorRow rowText))].
    split; [reflexivity | constructor; assumption].
Qed.

(** With enough fuel the loop visits the indices [i], [i + 1], ... up to
    the end of the row list, whatever each row does. *)
Lemma for_loop_spec (colorRows : list jsstring) (fuel : nat) :
  forall (i : nat) (w : W),
    length colorRows - i <= fuel ->
    exists w' ts,
      for_loop JSON_stringify clients colorRows fuel i w
        = (inr tt, w', concat ts)
      /\ Forall2 (row_trace_at colorRows)
                 (seq i (length colorRows - i)) ts.
Proof.
  induction fuel as [|fuel IH]; intros i w Hfuel.
  - exists w, []. split; [reflexivity|].
    replace (length colorRows - i) with 0 by lia. constructor.
  - cbn [for_loop]. destruct (i <? length colorRows) eqn:Hlt.
    + apply Nat.ltb_lt in Hlt.
      destruct (nth_error colorRows i) as [rowText|] eqn:Hrow.
      2:{ apply nth_error_None in Hrow. lia. }
      destruct (loop_body_spec colorRows i rowText w Hrow)
        as (w1 & t & Hbody & Ht).
      destruct (IH (S i) w1 ltac:(lia)) as (w2 & ts & Hloop & Hts).
      exists w2, (t :: ts). split.
      * unfold bind. rewrite Hbody, Hloop. reflexivity.
      * replace (length colorRows - i) with (S (length colorRows - S i))
          by lia.
        simpl. constructor; [exists rowText; split; assumption | assumption].
    + apply Nat.ltb_ge in Hlt. exists w, []. split; [reflexivity|].
      replace (length colorRows - i) with 0 by lia. constructor.
Qed.

(** The whole run: it completes, and its trace is the opening line, one row
    trace for every index from the offset to the end of the row list, and
    the closing line. *)
Lemma runFullScript_spec (file : jsstring) (maxRows startRow : option nat)
    (w : W) :
  let colorRows := getColorRows file true maxRows in
  let start := or_default startRow 0 in
  exists w' ts,
    runFullScript JSON_stringify clients file maxRows startRow w =
      (inr tt, w',
       LogProcessing (length colorRows) :: concat ts ++ [LogCompleted])
    /\ Forall2 (row_trace_at colorRows)
               (seq start (length colorRows - start)) ts.
Proof.
  intros colorRows start.
  destruct (for_loop_spec colorRows (length colorRows) start w
              ltac:(lia)) as (w' & ts & Hloop & Hts).
  exists w', ts. split; [|assumption].
  unfold runFullScript, bind. fold colorRows. fold start.
  unfold emit at 1. cbv beta iota. rewrite Hloop. reflexivity.
Qed.

Lemma loop_body_returns (colorRows : list jsstring) (i : nat) (w : W) :
  exists w' t, loop_body JSON_stringify clients colorRows i w = (inr tt, w', t).
Proof.
  destruct (nth_error colorRows i) as [rowText|] eqn:Hrow.
  - destruct (loop_body_spec colorRows i rowText w Hrow) as (w' & t & H & _).
    exists w', t; exact H.
  - exists w, [LogRowError (i + 1) TypeError].
    unfold loop_body, try_catch, bind. rewrite Hrow. reflexivity.
Qed.

Lemma In_pause_events (i total : nat) (ev : Event) :
  In ev (pause_events i total) ->
  ev = LogAddingDelay (i + 1) total \/ ev = Delay 200.
Proof.
  unfold pause_events. destruct ((i + 1) mod 10 =? 0); simpl;
    [intros [H|[H|[]]]; subst; auto | intros []].
Qed.

(** Membership in a row trace, event by event. *)
Ltac in_cases :=
  repeat match goal with
    | H : In _ (_ :: _) |- _ => destruct H as [H|H]
    | H : In _ (_ ++ _) |- _ => apply in_app_or in H; destruct H as [H|H]
    | H : In _ [] |- _ => destruct H
    | H : In _ (pause_events _ _) |- _ =>
        apply In_pause_events in H; destruct H as [H|H]
    end.

(** A failure in a row trace excludes a save in it; the [catch] logs the
    position of its own row, and an upsert in a row that ends in the [catch]
    is the call that was rejected. *)
Lemma row_trace_failure (total i : nat) (rowText : jsstring) (t : list Event) :
  row_trace total i rowText t ->
  forall ev, In ev t -> is_failure ev = true ->
    (forall n, ~ In (LogSaved n) t)
    /\ (forall pos e, ev = LogRowError pos e ->
          pos = i + 1
          /\ forall p, In (Upsert p) t ->
               exists input x,
                 t = [EmbeddingsCreate input; Upsert p;
                      LogRowError (i + 1) (External x)]).
Proof.
  intros Ht ev Hin Hfail.
  destruct Ht; in_cases; subst; try discriminate.
  all: split; [intros n Hn; in_cases; discriminate|].
  all: intros pos e' Heq; try discriminate Heq.
  all: injection Heq as <- <-.
  all: split; [reflexivity|].
  all: intros p' Hp; in_cases; try discriminate.
  injection Hp as <-. eexists; eexists; reflexivity.
Qed.

(** *** The periodic pause *)

Lemma filter_pause_events (i total : nat) :
  filter is_pause (pause_events i total) = pause_events i total.
Proof. unfold pause_events. destruct ((i + 1) mod 10 =? 0); reflexivity. Qed.

(** *** Errors of the store *)

(** C4, as amended.  When the upsert of a row resolves with an error, the
    persistence step logs it and returns normally: nothing reaches the
    [catch] of the loop, and the turn goes on to the pause check. *)
Theorem store_error_is_logged_in_saveColorEntry
    (colorRows : list jsstring) (i : nat) (rowText : jsstring)
    (p : PreppedColor) (e : ExtErr) (w w1 w2 : W) (t1 : list Event) :
  nth_error colorRows i = Some rowText ->
  prepColorEntry JSON_stringify clients (readColorRow rowText) w =
    (inr p, w1, t1) ->
  upsert clients p w1 = (inr (Some e), w2) ->
  saveColorEntry clients p w1 = (inr tt, w2, [Upsert p; ConsoleError e])
  /\ loop_body JSON_stringify clients colorRows i w =
     (inr tt, w2,
      [EmbeddingsCreate (name (readColorRow rowText)); Upsert p; ConsoleError e]
        ++ pause_events i (length colorRows))
  /\ existsb is_row_error
       (trace_of (loop_body JSON_stringify clients colorRows i w)) = false.
Proof.
  intros Hrow Hprep Hup.
  assert (Hsave : saveColorEntry clients p w1 =
                  (inr tt, w2, [Upsert p; ConsoleError e])).
  { rewrite saveColorEntry_unfold, Hup. reflexivity. }
  assert (Ht1 : t1 = [EmbeddingsCreate (name (readColorRow rowText))]).
  { rewrite prepColorEntry_unfold in Hprep.
    destruct (validRawColor (readColorRow rowText)) as [?|[|]];
      try discriminate.
    destruct (embeddings_create clients _ w) as [[?|?] ?]; try discriminate.
    destruct (method_replace _ HASH); congruence. }
  assert (Hbody : loop_body JSON_stringify clients colorRows i w =
     (inr tt, w2,
      [EmbeddingsCreate (name (readColorRow rowText)); Upsert p; ConsoleError e]
        ++ pause_events i (length colorRows))).
  { unfold loop_body, try_catch, bind. rewrite Hrow.
    unfold ret at 1. cbv beta iota. rewrite Hprep. cbv beta iota.
    rewrite Hsave. cbv beta iota. subst t1.
    unfold pause_events. destruct ((i + 1) mod 10 =? 0); reflexivity. }
  split; [exact Hsave|]. split; [exact Hbody|].
  rewrite Hbody. unfold trace_of, pause_events.
  destruct ((i + 1) mod 10 =? 0); reflexivity.
Qed.

(** *** The encoder *)

Lemma validRawColor_throws_TypeError (rawColor : RawColor) (e : Err) :
  validRawColor rawColor = inl e -> e = TypeError.
Proof.
  unfold validRawColor.
  destruct rawColor as [[| |n] [| |h] flag]; simpl; try congruence.
  all: destruct (length h =? 7); congruence.
Qed.

(** C5. The hex of a validated record is the marker followed by the six
    units the encoder keeps.  Once the provider has answered, the encoder
    returns the record with exactly those six units as its hex, so putting
    the marker back in front of the encoded hex gives the original
    seven-unit string; and it returns no other hex. *)
Theorem hex_round_trip (rawColor : RawColor) :
  validRawColor rawColor = inr true ->
  exists h6,
    length h6 = 6
    /\ method_replace (hex rawColor) HASH = inr (VString h6)
    /\ hex rawColor = VString (HASH :: h6)
    /\ (forall w v w1,
          embeddings_create clients (name rawColor) w = (inr v, w1) ->
          prepColorEntry JSON_stringify clients rawColor w =
          (inr {| p_name := name rawColor;
                  p_hex := VString h6;
                  p_is_good_name := is_good_name rawColor;
                  embedding_openai_1536 := JSON_stringify v |},
           w1, [EmbeddingsCreate (name rawColor)]))
    /\ (forall w p w' t,
          prepColorEntry JSON_stringify clients rawColor w = (inr p, w', t) ->
          p_hex p = VString h6).
Proof.
  intros Hvalid.
  destruct (valid_hex_shape rawColor Hvalid) as (h6 & Hhex & Hlen).
  assert (Hrep : method_replace (hex rawColor) HASH = inr (VString h6)).
  { rewrite Hhex. cbn [method_replace replace_first].
    rewrite N.eqb_refl. reflexivity. }
  exists h6.
  split; [exact Hlen|]. split; [exact Hrep|]. split; [exact Hhex|]. split.
  - intros w v w1 Hembed.
    rewrite prepColorEntry_unfold, Hvalid, Hembed, Hrep. reflexivity.
  - intros w p w' t Hprep.
    rewrite prepColorEntry_unfold, Hvalid, Hrep in Hprep.
    destruct (embeddings_create clients (name rawColor) w) as [[?|?] ?];
      [discriminate|].
    injection Hprep as <- _ _. reflexivity.
Qed.

(** C8. Enrichment fails with the error that carries the record exactly when
    validation returns [false]; it has then asked for no embedding, and the
    turn of the loop ends in the [catch] without a store write. *)
Theorem prepColorEntry_rejects_iff (rawColor : RawColor) (w : W) :
  ((exists w' t,
       prepColorEntry JSON_stringify clients rawColor w =
       (inl (InvalidRawColor rawColor), w', t))
   <-> validRawColor rawColor = inr false)
  /\ (forall rawColor' w' t,
        prepColorEntry JSON_stringify clients rawColor w =
          (inl (InvalidRawColor rawColor'), w', t) ->
        rawColor' = rawColor /\ w' = w /\ t = [])
  /\ (forall colorRows i rowText,
        nth_error colorRows i = Some rowText ->
        rawColor = readColorRow rowText ->
        validRawColor rawColor = inr false ->
        loop_body JSON_stringify clients colorRows i w =
          (inr tt, w, [LogRowError (i + 1) (InvalidRawColor rawColor)])).
Proof.
  assert (Hinv : forall rawColor' w' t,
             prepColorEntry JSON_stringify clients rawColor w =
               (inl (InvalidRawColor rawColor'), w', t) ->
             validRawColor rawColor = inr false
             /\ rawColor' = rawColor /\ w' = w /\ t = []).
  { intros rawColor' w' t H. rewrite prepColorEntry_unfold in H.
    destruct (validRawColor rawColor) as [e|[|]] eqn:Hvalid.
    - apply validRawColor_throws_TypeError in Hvalid. subst e. discriminate.
    - destruct (embeddings_create clients (name rawColor) w) as [[?|?] ?];
        [discriminate|].
      destruct (hex rawColor); simpl in H; discriminate.
    - injection H as <- <- <-. auto. }
  split; [split|split].
  - intros (w' & t & H). apply (Hinv _ _ _ H).
  - intros Hvalid. exists w, []. rewrite prepColorEntry_unfold, Hvalid.
    reflexivity.
  - intros rawColor' w' t H. apply (Hinv _ _ _ H).
  - intros colorRows i rowText Hrow -> Hvalid.
    unfold loop_body, try_catch, bind. rewrite Hrow.
    unfold ret at 1. cbv beta iota.
    rewrite prepColorEntry_unfold, Hvalid. reflexivity.
Qed.

End Pipeline.

(** ** The cap on the number of rows *)

Lemma getColorRows_positive_cap (file : jsstring) (omitHeader : bool) (m : nat) :
  length (getColorRows file omitHeader (Some (S m))) <= S m.
Proof.
  unfold getColorRows, slice_0. cbn [truthy or_default].
  apply firstn_le_length.
Qed.

(** C3, at the cap 0.  [maxRows ? ... : ...] takes 0 for an absent cap: the
    row list is not cut and every row of the file is attempted. *)
Theorem zero_cap_attempts_every_row :
  (forall file omitHeader,
      getColorRows file omitHeader (Some 0) = getColorRows file omitHeader None)
  /\ getColorRows (Sample.file_of [Sample.red_row; Sample.blue_row]) true (Some 0)
     = [Sample.red_row; Sample.blue_row]
  /\ trace_of (runFullScript Sample.stringify Sample.ok_clients
                 (Sample.file_of [Sample.red_row; Sample.blue_row])
                 (Some 0) None 0)
     = [LogProcessing 2;
        EmbeddingsCreate (VString (lit "Red"));
        Upsert Sample.red_prepped;
        LogSaved (VString (lit "Red"));
        EmbeddingsCreate (VString (lit "Blue"));
        Upsert {| p_name := VString (lit "Blue");
                  p_hex := VString (lit "0000ff");
                  p_is_good_name := VBoolean false;
                  embedding_openai_1536 := lit "[0.25,-0.5]" |};
        LogSaved (VString (lit "Blue"));
        LogCompleted].
Proof.
  split; [reflexivity|]. split; vm_compute; reflexivity.
Qed.

Example positive_cap_cuts_the_rows :
  getColorRows (Sample.file_of [Sample.red_row; Sample.blue_row]) true (Some 1)
  = [Sample.red_row].
Proof. reflexivity. Qed.

(** ** Instances *)

(** C2 as stated fails.  Ten rows of which the tenth has no name: ten rows
    are attempted and no pause is taken.  Fourteen valid rows resumed at
    offset 5: nine rows are attempted and a pause is taken, after the fifth
    of them. *)
Lemma pause_does_not_follow_every_ten_attempts :
  (length (getColorRows
             (Sample.file_of (Sample.valid_rows_then 9 [Sample.nameless_row]))
             true None) - 0 = 10
   /\ filter is_pause
        (trace_of (runFullScript Sample.stringify Sample.ok_clients
           (Sample.file_of (Sample.valid_rows_then 9 [Sample.nameless_row]))
           None None 0)) = [])
  /\ (length (getColorRows (Sample.file_of (repeat Sample.red_row 14)) true None)
        - 5 = 9
      /\ filter (fun ev => is_pause ev || is_saved ev)
           (trace_of (runFullScript Sample.stringify Sample.ok_clients
              (Sample.file_of (repeat Sample.red_row 14)) None (Some 5) 0))
         = repeat (LogSaved (VString (lit "Red"))) 5
             ++ [LogAddingDelay 10 14; Delay 200]
             ++ repeat (LogSaved (VString (lit "Red"))) 4).
Proof.
  repeat split; vm_compute; reflexivity.
Qed.

Lemma store_error_is_logged_in_saveColorEntry_witness :
  trace_of (loop_body Sample.stringify Sample.refusing_clients
              [Sample.red_row] 0 0)
  = [EmbeddingsCreate (VString (lit "Red")); Upsert Sample.red_prepped;
     ConsoleError (lit "permission denied")].
Proof.
  rewrite (proj1 (proj2 (store_error_is_logged_in_saveColorEntry
    _ _ Sample.stringify Sample.refusing_clients
    [Sample.red_row] 0 Sample.red_row Sample.red_prepped
    (lit "permission denied") 0 1 2
    [EmbeddingsCreate (VString (lit "Red"))]
    eq_refl eq_refl eq_refl))).
  reflexivity.
Defined.

(** C4 as stated fails.  The store refuses the only row: the error is on the
    console without a row position, the row is not thrown out of, and the
    run goes on as after a save. *)
Lemma store_error_never_reaches_the_catch :
  runFullScript Sample.stringify Sample.refusing_clients
    (Sample.file_of [Sample.red_row]) None None 0
  = (inr tt, 2,
     [LogProcessing 1;
      EmbeddingsCreate (VString (lit "Red"));
      Upsert Sample.red_prepped;
      ConsoleError (lit "permission denied");
      LogCompleted])
  /\ existsb is_row_error
       (trace_of (runFullScript Sample.stringify Sample.refusing_clients
                    (Sample.file_of [Sample.red_row]) None None 0)) = false.
Proof.
  split; vm_compute; reflexivity.
Qed.

Lemma hex_round_trip_witness :
  validRawColor Sample.red = inr true
  /\ prepColorEntry Sample.stringify Sample.ok_clients Sample.red 0
     = (inr Sample.red_prepped, 1, [EmbeddingsCreate (VString (lit "Red"))])
  /\ VString (HASH :: lit "ff0000") = hex Sample.red.
Proof.
  split; [reflexivity|].
  destruct (hex_round_trip _ _ Sample.stringify Sample.ok_clients Sample.red
              eq_refl) as (h6 & _ & Hrep & Hhex & Hret & _).
  injection Hrep as <-.
  split; [exact (Hret 0 [1; 2] 1 eq_refl) | reflexivity].
Defined.

Example prepColorEntry_red :
  prepColorEntry Sample.stringify Sample.ok_clients Sample.red 0
  = (inr Sample.red_prepped, 1, [EmbeddingsCreate (VString (lit "Red"))]).
Proof. reflexivity. Qed.

Lemma prepColorEntry_rejects_iff_witness :
  loop_body Sample.stringify Sample.ok_clients [Sample.nameless_row] 0 0
  = (inr tt, 0,
     [LogRowError 1 (InvalidRawColor (readColorRow Sample.nameless_row))]).
Proof.
  change (0 + 1) with 1.
  exact (proj2 (proj2 (prepColorEntry_rejects_iff
    _ _ Sample.stringify Sample.ok_clients
    (readColorRow Sample.nameless_row) 0))
    [Sample.nameless_row] 0 Sample.nameless_row eq_refl eq_refl eq_refl).
Defined.

(** Row 5 of 25 is refused by the provider: the other 24 rows are saved. *)
Example provider_error_on_row_5 :
  filter (fun ev => is_failure ev)
    (trace_of (runFullScript Sample.stringify (Sample.flaky_clients 66%N)
       (Sample.file_of (repeat Sample.red_row 4 ++ Sample.blue_row
                          :: repeat Sample.red_row 20)) None None 0))
  = [LogRowError 5 (External (lit "quota exceeded"))]
  /\ length (filter is_saved
       (trace_of (runFullScript Sample.stringify (Sample.flaky_clients 66%N)
          (Sample.file_of (repeat Sample.red_row 4 ++ Sample.blue_row
                             :: repeat Sample.red_row 20)) None None 0)))
     = 24.
Proof. split; vm_compute; reflexivity. Qed.

(** A file that ends with a newline has an empty last row: validation
    throws on it, and the loop catches that too. *)
Example trailing_newline_row :
  trace_of (runFullScript Sample.stringify Sample.ok_clients
              (Sample.file_of [Sample.red_row] ++ [NEWLINE]) None None 0)
  = [LogProcessing 2;
     EmbeddingsCreate (VString (lit "Red"));
     Upsert Sample.red_prepped;
     LogSaved (VString (lit "Red"));
     LogRowError 2 TypeError;
     LogCompleted].
Proof. vm_compute; reflexivity. Qed.

(** * Further properties of the script *)

(** ** Lines and rows *)

Lemma join_split (sep : char16) (s : jsstring) : join sep (split sep s) = s.
Proof.
  induction s as [|c s IH]; [reflexivity|].
  cbn [split]. destruct (N.eqb c sep) eqn:Hc.
  - apply N.eqb_eq in Hc. subst c.
    destruct (split sep s) as [|f fs] eqn:Hs.
    + destruct (split_not_nil sep s Hs).
    + change (join sep ([] :: f :: fs)) with (sep :: join sep (f :: fs)).
      rewrite IH. reflexivity.
  - destruct (split sep s) as [|f fs] eqn:Hs.
    + destruct (split_not_nil sep s Hs).
    + destruct fs as [|g fs]; simpl in *; rewrite IH; reflexivity.
Qed.

Lemma split_fields_free (sep : char16) (s : jsstring) :
  Forall (fun f => contains sep f = false) (split sep s).
Proof.
  induction s as [|c s IH]; [repeat constructor|].
  cbn [split]. destruct (N.eqb c sep) eqn:Hc.
  - constructor; [reflexivity | exact IH].
  - destruct (split sep s) as [|f fs]; [repeat constructor; simpl; now rewrite Hc|].
    inversion IH as [|? ? Hf Hfs]; subst.
    constructor; [simpl; rewrite Hc, Hf; reflexivity | exact Hfs].
Qed.

Lemma length_split (sep : char16) (s : jsstring) :
  length (split sep s) = S (count_unit sep s).
Proof.
  unfold count_unit. induction s as [|c s IH]; [reflexivity|].
  cbn [split filter]. destruct (N.eqb c sep).
  - simpl. rewrite IH. reflexivity.
  - destruct (split sep s) as [|f fs]; simpl in *; lia.
Qed.

Lemma contains_count (c : char16) (s : jsstring) :
  contains c s = false <-> count_unit c s = 0.
Proof.
  unfold contains, count_unit. induction s as [|x s IH]; simpl; [tauto|].
  destruct (N.eqb x c); simpl; [split; [discriminate | lia] | exact IH].
Qed.

Lemma split_snoc_sep (sep : char16) (s : jsstring) :
  split sep (s ++ [sep]) = split sep s ++ [[]].
Proof.
  induction s as [|c s IH].
  - simpl. rewrite N.eqb_refl. reflexivity.
  - cbn [app split]. rewrite IH. destruct (N.eqb c sep); [reflexivity|].
    destruct (split sep s) as [|f fs] eqn:Hs; [|reflexivity].
    destruct (split_not_nil sep s Hs).
Qed.

(** X1. [getColorRows] loses nothing but the header line: with the header
    kept the rows joined by newlines are the file, and with the header
    dropped the file is its first line, a newline, and the rows joined. *)
Theorem getColorRows_keeps_the_file (file : jsstring) :
  join NEWLINE (getColorRows file false None) = file
  /\ exists header,
       contains NEWLINE header = false
       /\ getColorRows file false None = header :: getColorRows file true None
       /\ (getColorRows file true None <> [] ->
           file = header ++ NEWLINE
                    :: join NEWLINE (getColorRows file true None)).
Proof.
  unfold getColorRows, slice_from_1. cbn [truthy].
  split; [apply join_split|].
  assert (Hjoin := join_split NEWLINE file).
  assert (Hfree := split_fields_free NEWLINE file).
  destruct (split NEWLINE file) as [|header rows] eqn:Hs.
  - destruct (split_not_nil NEWLINE file Hs).
  - exists header. inversion Hfree as [|? ? Hheader _].
    split; [exact Hheader|]. split; [reflexivity|].
    cbn [tl]. intros Hrows. destruct rows as [|r rows]; [congruence|].
    symmetry. exact Hjoin.
Qed.

(** X2. With the header dropped there are as many rows as the file has
    newlines: none for an empty file or a lone header line, and one more,
    empty, row for a newline at the end of the file. *)
Theorem getColorRows_row_count (file : jsstring) :
  length (getColorRows file true None) = count_unit NEWLINE file
  /\ (getColorRows file true None = [] <-> contains NEWLINE file = false)
  /\ getColorRows (file ++ [NEWLINE]) true None
     = getColorRows file true None ++ [[]].
Proof.
  unfold getColorRows, slice_from_1. cbn [truthy].
  assert (Hlen := length_split NEWLINE file).
  split; [|split].
  - destruct (split NEWLINE file); simpl in *; lia.
  - rewrite contains_count.
    destruct (split NEWLINE file) as [|h [|r rows]]; simpl in *;
      split; intros H; try discriminate; try reflexivity; lia.
  - rewrite split_snoc_sep.
    destruct (split NEWLINE file) as [|h rows] eqn:Hs; [|reflexivity].
    destruct (split_not_nil NEWLINE file Hs).
Qed.

(** ** Rows the parser cannot fill *)

(** X4. [validRawColor] throws, rather than returning [false], exactly when
    the name or the hex is [undefined], and what it throws is a [TypeError];
    on a parsed row that is exactly when the row has no comma. *)
Theorem validRawColor_throws_iff (rawColor : RawColor) (rowText : jsstring) :
  (forall e,
      validRawColor rawColor = inl e <->
      e = TypeError
      /\ (name rawColor = VUndefined \/ hex rawColor = VUndefined))
  /\ (validRawColor (readColorRow rowText) = inl TypeError <->
      contains COMMA rowText = false).
Proof.
  assert (Hthrow : forall rc e,
             validRawColor rc = inl e <->
             e = TypeError /\ (name rc = VUndefined \/ hex rc = VUndefined)).
  { intros rc e. split.
    - intros H. split; [exact (validRawColor_throws_TypeError rc e H)|].
      destruct rc as [[| |n] [| |h] flag]; simpl; auto;
        unfold validRawColor in H; simpl in H; try discriminate.
      all: destruct (length h =? 7); discriminate.
    - intros [-> H].
      destruct rc as [[| |n] [| |h] flag]; simpl in H;
        try reflexivity; destruct H; discriminate. }
  split; [apply Hthrow|].
  rewrite Hthrow, contains_count.
  assert (Hlen := length_split COMMA rowText).
  unfold readColorRow.
  destruct (split COMMA rowText) as [|a [|b rest]]; simpl in Hlen;
    cbn [name hex element nth_error]; split.
  - lia.
  - lia.
  - intros _. lia.
  - intros _. auto.
  - intros [_ [H|H]]; discriminate.
  - lia.
Qed.

Example validRawColor_throws_iff_no_comma :
  validRawColor (readColorRow (lit "Red #ff0000 x")) = inl TypeError.
Proof. reflexivity. Qed.

(** X5. Nothing is quoted: the name is the text before the first comma, the
    hex is what would be the name of the rest of the line, and the flag is
    read from what would be its hex. *)
Theorem readColorRow_splits_at_first_comma (f1 rest : jsstring) :
  contains COMMA f1 = false ->
  readColorRow (f1 ++ COMMA :: rest) =
  {| name := VString f1;
     hex := name (readColorRow rest);
     is_good_name :=
       VBoolean (strict_eq_string (hex (readColorRow rest)) (lit "x")) |}.
Proof.
  intros Hfree. unfold readColorRow.
  rewrite (split_field_then_sep COMMA f1 rest Hfree). reflexivity.
Qed.

Lemma readColorRow_splits_at_first_comma_witness :
  contains COMMA (lit "Dark") = false
  /\ readColorRow (lit "Dark, red,#ff0000,x") =
     {| name := VString (lit "Dark");
        hex := VString (lit " red");
        is_good_name := VBoolean false |}.
Proof.
  split; [reflexivity|].
  exact (readColorRow_splits_at_first_comma
           (lit "Dark") (lit " red,#ff0000,x") eq_refl).
Defined.

(** ** The courses of one row *)

Section Courses.

Variables (Embedding W : Type).
Variable JSON_stringify : Embedding -> jsstring.
Variable clients : Clients Embedding W.

(** X3. A row without a comma (the empty row after a final newline is one)
    has no hex: validation throws, the loop catches the [TypeError] and logs
    it with the position of the row, and no collaborator is called. *)
Theorem row_without_comma_is_caught
    (colorRows : list jsstring) (i : nat) (rowText : jsstring) (w : W) :
  nth_error colorRows i = Some rowText ->
  contains COMMA rowText = false ->
  loop_body JSON_stringify clients colorRows i w =
  (inr tt, w, [LogRowError (i + 1) TypeError]).
Proof.
  intros Hrow Hfree.
  assert (Hvalid : validRawColor (readColorRow rowText) = inl TypeError).
  { unfold readColorRow. rewrite (split_one_field COMMA rowText Hfree).
    reflexivity. }
  unfold loop_body, try_catch, bind. rewrite Hrow.
  unfold ret at 1. cbv beta iota.
  rewrite prepColorEntry_unfold, Hvalid. reflexivity.
Qed.

(** X6. A row [name,#hhhhhh,flag] with a name of 1 to 99 units and any six
    units after the marker goes through the whole pipeline when both
    collaborators answer: one provider call on the name, one upsert of the
    record with the marker stripped and the vector stringified, the save
    line, and the pause if the position calls for it. *)
Theorem wellformed_row_is_saved
    (colorRows : list jsstring) (i : nat) (f1 h6 f3 : jsstring)
    (v : Embedding) (w w1 w2 : W) :
  nth_error colorRows i = Some (f1 ++ COMMA :: (HASH :: h6) ++ COMMA :: f3) ->
  comma_free [f1; h6; f3] = true ->
  1 <= length f1 < 100 ->
  length h6 = 6 ->
  embeddings_create clients (VString f1) w = (inr v, w1) ->
  upsert clients
    {| p_name := VString f1; p_hex := VString h6;
       p_is_good_name := VBoolean (jsstring_eqb f3 (lit "x"));
       embedding_openai_1536 := JSON_stringify v |} w1 = (inr None, w2) ->
  loop_body JSON_stringify clients colorRows i w =
  (inr tt, w2,
   [EmbeddingsCreate (VString f1);
    Upsert {| p_name := VString f1; p_hex := VString h6;
              p_is_good_name := VBoolean (jsstring_eqb f3 (lit "x"));
              embedding_openai_1536 := JSON_stringify v |};
    LogSaved (VString f1)] ++ pause_events i (length colorRows)).
Proof.
  intros Hrow Hfree [Hn1 Hn2] Hh Hembed Hupsert.
  assert (Hparse : readColorRow (f1 ++ COMMA :: (HASH :: h6) ++ COMMA :: f3) =
            {| name := VString f1; hex := VString (HASH :: h6);
               is_good_name := VBoolean (jsstring_eqb f3 (lit "x")) |}).
  { change (f1 ++ COMMA :: (HASH :: h6) ++ COMMA :: f3)
      with (join COMMA [f1; HASH :: h6; f3]).
    rewrite readColorRow_of_fields; [reflexivity | discriminate | exact Hfree]. }
  assert (Hvalid : validRawColor
            {| name := VString f1; hex := VString (HASH :: h6);
               is_good_name := VBoolean (jsstring_eqb f3 (lit "x")) |}
            = inr true).
  { rewrite validRawColor_strings. f_equal.
    apply Nat.ltb_lt in Hn1, Hn2. rewrite Hn1, Hn2.
    cbn [length]. rewrite Hh. reflexivity. }
  unfold loop_body, try_catch, bind. rewrite Hrow.
  unfold ret at 1. cbv beta iota.
  rewrite Hparse, prepColorEntry_unfold, Hvalid.
  cbn [name hex is_good_name]. rewrite Hembed.
  cbn [method_replace replace_first]. rewrite N.eqb_refl. cbv beta iota.
  rewrite saveColorEntry_unfold, Hupsert. cbv beta iota.
  unfold pause_events. destruct ((i + 1) mod 10 =? 0); reflexivity.
Qed.

(** X7. A rejection by a collaborator on a validated row ends the row in the
    [catch], logged with the position of the row and without a retry: after
    the one provider call if the provider rejects, after the one upsert if
    the store rejects; in both cases no save and no pause follow. *)
Theorem collaborator_rejection_is_caught
    (colorRows : list jsstring) (i : nat) (rowText : jsstring) (w : W) :
  nth_error colorRows i = Some rowText ->
  validRawColor (readColorRow rowText) = inr true ->
  (forall e w1,
      embeddings_create clients (name (readColorRow rowText)) w = (inl e, w1) ->
      loop_body JSON_stringify clients colorRows i w =
      (inr tt, w1,
       [EmbeddingsCreate (name (readColorRow rowText));
        LogRowError (i + 1) (External e)]))
  /\ (forall p w1 t1 e w2,
        prepColorEntry JSON_stringify clients (readColorRow rowText) w
          = (inr p, w1, t1) ->
        upsert clients p w1 = (inl e, w2) ->
        loop_body JSON_stringify clients colorRows i w =
        (inr tt, w2,
         [EmbeddingsCreate (name (readColorRow rowText)); Upsert p;
          LogRowError (i + 1) (External e)])).
Proof.
  intros Hrow Hvalid. split.
  - intros e w1 Hembed.
    unfold loop_body, try_catch, bind. rewrite Hrow.
    unfold ret at 1. cbv beta iota.
    rewrite prepColorEntry_unfold, Hvalid, Hembed. reflexivity.
  - intros p w1 t1 e w2 Hprep Hupsert.
    assert (Ht1 : t1 = [EmbeddingsCreate (name (readColorRow rowText))]).
    { rewrite prepColorEntry_unfold, Hvalid in Hprep.
      destruct (embeddings_create clients _ w) as [[?|?] ?]; try discriminate.
      destruct (method_replace _ HASH); congruence. }
    unfold loop_body, try_catch, bind. rewrite Hrow.
    unfold ret at 1. cbv beta iota. rewrite Hprep. cbv beta iota.
    rewrite saveColorEntry_unfold, Hupsert. cbv beta iota.
    subst t1. reflexivity.
Qed.

End Courses.

Lemma row_without_comma_is_caught_witness :
  loop_body Sample.stringify Sample.ok_clients
    (getColorRows (Sample.file_of [Sample.red_row] ++ [NEWLINE]) true None) 1 7
  = (inr tt, 7, [LogRowError 2 TypeError]).
Proof.
  exact (row_without_comma_is_caught _ _ Sample.stringify Sample.ok_clients
           (getColorRows (Sample.file_of [Sample.red_row] ++ [NEWLINE]) true None)
           1 [] 7 eq_refl eq_refl).
Defined.

Lemma wellformed_row_is_saved_witness :
  loop_body Sample.stringify Sample.ok_clients
    (repeat (lit "Moss,#zz-012,x") 10) 9 0
  = (inr tt, 2,
     [EmbeddingsCreate (VString (lit "Moss"));
      Upsert {| p_name := VString (lit "Moss");
                p_hex := VString (lit "zz-012");
                p_is_good_name := VBoolean true;
                embedding_openai_1536 := lit "[0.25,-0.5]" |};
      LogSaved (VString (lit "Moss"));
      LogAddingDelay 10 10; Delay 200]).
Proof.
  exact (wellformed_row_is_saved _ _ Sample.stringify Sample.ok_clients
           (repeat (lit "Moss,#zz-012,x") 10) 9
           (lit "Moss") (lit "zz-012") (lit "x") [1; 2] 0 1 2
           eq_refl eq_refl ltac:(simpl; lia) eq_refl eq_refl eq_refl).
Defined.

Lemma collaborator_rejection_is_caught_witness :
  loop_body Sample.stringify (Sample.flaky_clients 66%N)
    (repeat Sample.blue_row 10) 9 0
  = (inr tt, 1,
     [EmbeddingsCreate (VString (lit "Blue"));
      LogRowError 10 (External (lit "quota exceeded"))])
  /\ loop_body Sample.stringify Sample.unreachable_store_clients
       (repeat Sample.red_row 10) 9 0
     = (inr tt, 2,
        [EmbeddingsCreate (VString (lit "Red")); Upsert Sample.red_prepped;
         LogRowError 10 (External (lit "connection reset"))]).
Proof.
  split.
  - exact (proj1 (collaborator_rejection_is_caught
             _ _ Sample.stringify (Sample.flaky_clients 66%N)
             (repeat Sample.blue_row 10) 9 Sample.blue_row 0 eq_refl eq_refl)
             (lit "quota exceeded") 1 eq_refl).
  - exact (proj2 (collaborator_rejection_is_caught
             _ _ Sample.stringify Sample.unreachable_store_clients
             (repeat Sample.red_row 10) 9 Sample.red_row 0 eq_refl eq_refl)
             Sample.red_prepped 1 [EmbeddingsCreate (VString (lit "Red"))]
             (lit "connection reset") 2 eq_refl eq_refl).
Defined.

(** ** Whole runs *)

Lemma skipn_nth_error (A : Type) (l : list A) :
  forall i x, nth_error l i = Some x -> skipn i l = x :: skipn (S i) l.
Proof.
  induction l as [|a l IH]; intros [|i] x H; simpl in H; try discriminate.
  - injection H as ->. reflexivity.
  - exact (IH i x H).
Qed.

(** The row traces of a run, read against the rows from the offset on. *)
Lemma row_traces_of_rows (colorRows : list jsstring)
    (Q : jsstring -> list Event -> Prop) :
  (forall total k rowText t, row_trace total k rowText t -> Q rowText t) ->
  forall n i ts,
    n = length colorRows - i ->
    Forall2 (row_trace_at colorRows) (seq i n) ts ->
    Forall2 Q (skipn i colorRows) ts.
Proof.
  intros HQ. induction n as [|n IH]; intros i ts Hn Hts.
  - inversion Hts; subst. rewrite skipn_all2 by lia. constructor.
  - cbn [seq] in Hts.
    inversion Hts as [|k t ks ts' (rowText & Hrow & Ht) Hrest]; subst.
    rewrite (skipn_nth_error _ colorRows i rowText Hrow).
    constructor; [exact (HQ _ _ _ _ Ht)|].
    apply IH; [lia | exact Hrest].
Qed.

Lemma filter_none (A : Type) (f : A -> bool) (l : list A) :
  (forall x, In x l -> f x = false) -> filter f l = [].
Proof.
  induction l as [|a l IH]; intros H; [reflexivity|].
  simpl. rewrite (H a (or_introl eq_refl)). apply IH.
  intros x Hx. apply H. right; exact Hx.
Qed.

Lemma pause_events_readings (i total : nat) :
  embedding_inputs (pause_events i total) = []
  /\ upserts (pause_events i total) = []
  /\ filter is_outcome (pause_events i total) = [].
Proof.
  unfold pause_events. destruct ((i + 1) mod 10 =? 0); repeat split.
Qed.

Lemma row_trace_outcome (total i : nat) (rowText : jsstring) (t : list Event) :
  row_trace total i rowText t -> length (filter is_outcome t) = 1.
Proof.
  destruct (pause_events_readings i total) as (_ & _ & Hp).
  intros Ht. destruct Ht; simpl; rewrite ?Hp; reflexivity.
Qed.

Lemma row_trace_inputs (total i : nat) (rowText : jsstring) (t : list Event) :
  row_trace total i rowText t ->
  embedding_inputs t =
  if is_valid_row rowText then [name (readColorRow rowText)] else [].
Proof.
  destruct (pause_events_readings i total) as (Hp & _ & _).
  unfold is_valid_row.
  intros Ht. destruct Ht as [e H|H|e H|p e H _|p e H _|p H _];
    rewrite H; simpl; rewrite ?Hp; reflexivity.
Qed.

Lemma row_trace_upserts (total i : nat) (rowText : jsstring) (t : list Event) :
  row_trace total i rowText t ->
  upserts t = []
  \/ exists p, upserts t = [p]
               /\ is_valid_row rowText = true
               /\ encodes (readColorRow rowText) p.
Proof.
  destruct (pause_events_readings i total) as (_ & Hp & _).
  unfold is_valid_row.
  intros Ht. destruct Ht as [e H|H|e H|p e H Henc|p e H Henc|p H Henc];
    try (left; reflexivity);
    right; exists p; rewrite H; simpl; rewrite ?Hp; auto.
Qed.

Lemma row_trace_pause_or_not (total i : nat) (rowText : jsstring)
    (t : list Event) :
  row_trace total i rowText t ->
  filter is_pause t = []
  \/ ((i + 1) mod 10 =? 0) = true
     /\ filter is_pause t = [LogAddingDelay (i + 1) total; Delay 200].
Proof.
  intros Ht.
  destruct Ht; try (left; reflexivity);
    cbn [app filter is_pause]; rewrite filter_pause_events;
    unfold pause_events; destruct ((i + 1) mod 10 =? 0); auto.
Qed.

Lemma row_traces_outcomes (colorRows : list jsstring) (indices : list nat)
    (ts : list (list Event)) :
  Forall2 (row_trace_at colorRows) indices ts ->
  length (filter is_outcome (concat ts)) = length indices.
Proof.
  induction 1 as [|i t indices ts (rowText & _ & Ht) _ IH]; [reflexivity|].
  simpl. rewrite filter_app, length_app, IH.
  rewrite (row_trace_outcome _ _ _ _ Ht). reflexivity.
Qed.

Lemma row_traces_paused (colorRows : list jsstring) (indices : list nat)
    (ts : list (list Event)) :
  Forall2 (row_trace_at colorRows) indices ts ->
  exists paused,
    subsequence paused (filter (fun pos => pos mod 10 =? 0) (map S indices))
    /\ filter is_pause (concat ts) =
       flat_map (fun pos => [LogAddingDelay pos (length colorRows); Delay 200])
                paused.
Proof.
  induction 1 as [|i t indices ts (rowText & _ & Ht) _ (paused & Hsub & Heq)].
  - exists []. split; [constructor | reflexivity].
  - cbn [map filter concat]. rewrite filter_app, Heq.
    rewrite <- Nat.add_1_r.
    destruct (row_trace_pause_or_not _ _ _ _ Ht) as [Hnone | (Hten & Hpause)].
    + exists paused. rewrite Hnone. split; [|reflexivity].
      destruct ((i + 1) mod 10 =? 0); [apply subsequence_skip|]; exact Hsub.
    + exists ((i + 1) :: paused). rewrite Hpause, Hten.
      split; [apply subsequence_keep; exact Hsub | reflexivity].
Qed.

Lemma subsequence_nil_r (A : Type) (l : list A) : subsequence l [] -> l = [].
Proof. intros H. inversion H. reflexivity. Qed.

Section Runs.

Variables (Embedding W : Type).
Variable JSON_stringify : Embedding -> jsstring.
Variable clients : Clients Embedding W.

(** The trace of a run around its row traces. *)
Lemma runFullScript_log (file : jsstring) (maxRows startRow : option nat)
    (w : W) :
  exists ts,
    trace_of (runFullScript JSON_stringify clients file maxRows startRow w)
    = LogProcessing (length (getColorRows file true maxRows))
        :: concat ts ++ [LogCompleted]
    /\ Forall2 (row_trace_at (getColorRows file true maxRows))
         (seq (or_default startRow 0)
              (length (getColorRows file true maxRows) - or_default startRow 0))
         ts.
Proof.
  destruct (runFullScript_spec Embedding W JSON_stringify clients
              file maxRows startRow w) as (w' & ts & Hrun & Hts).
  exists ts. split; [|exact Hts].
  unfold trace_of. rewrite Hrun. reflexivity.
Qed.

(** X8. Every visited row ends in exactly one outcome (a save, an error of
    the store on the console, or an error caught by the loop), so a run
    leaves as many outcomes as there are rows from the offset on; with a cap
    of [m >= 1] that is at most [m]. *)
Theorem one_outcome_per_visited_row
    (file : jsstring) (maxRows startRow : option nat) (w : W) :
  let log :=
    trace_of (runFullScript JSON_stringify clients file maxRows startRow w) in
  length (filter is_outcome log)
  = length (getColorRows file true maxRows) - or_default startRow 0
  /\ forall m, maxRows = Some (S m) -> length (filter is_outcome log) <= S m.
Proof.
  intros log.
  assert (Hcount : length (filter is_outcome log)
            = length (getColorRows file true maxRows) - or_default startRow 0).
  { destruct (runFullScript_log file maxRows startRow w) as (ts & Hlog & Hts).
    unfold log. rewrite Hlog. simpl. rewrite filter_app. simpl.
    rewrite app_nil_r.
    rewrite (row_traces_outcomes _ _ _ Hts). apply length_seq. }
  split; [exact Hcount|].
  intros m ->. rewrite Hcount.
  pose proof (getColorRows_positive_cap file true m). lia.
Qed.

(** X9. The provider is called once for every visited row that passes
    validation, in the order of the rows and with the name of the row as
    input, and never for another row. *)
Theorem provider_called_once_per_valid_row
    (file : jsstring) (maxRows startRow : option nat) (w : W) :
  embedding_inputs
    (trace_of (runFullScript JSON_stringify clients file maxRows startRow w))
  = map (fun rowText => name (readColorRow rowText))
        (filter is_valid_row
           (skipn (or_default startRow 0) (getColorRows file true maxRows))).
Proof.
  destruct (runFullScript_log file maxRows startRow w) as (ts & Hlog & Hts).
  rewrite Hlog. unfold embedding_inputs at 1. cbn [flat_map app].
  rewrite flat_map_app. cbn [flat_map]. rewrite app_nil_r.
  fold (embedding_inputs (concat ts)). clear Hlog.
  apply (row_traces_of_rows _
           (fun r t => embedding_inputs t =
                       if is_valid_row r then [name (readColorRow r)] else [])
           row_trace_inputs _ _ _ eq_refl) in Hts.
  induction Hts as [|r t rows ts' Ht _ IH]; [reflexivity|].
  cbn [concat filter]. unfold embedding_inputs in *.
  rewrite flat_map_app, Ht, IH.
  destruct (is_valid_row r); reflexivity.
Qed.

(** X10. Only encoded validated rows reach the store: every upserted record
    is the encoding of a visited row that passed validation, and the upserts
    follow the order of the provider calls, at most one after each. *)
Theorem only_validated_rows_reach_the_store
    (file : jsstring) (maxRows startRow : option nat) (w : W) :
  let log :=
    trace_of (runFullScript JSON_stringify clients file maxRows startRow w) in
  Forall (fun p =>
            exists rowText,
              In rowText (skipn (or_default startRow 0)
                                (getColorRows file true maxRows))
              /\ validRawColor (readColorRow rowText) = inr true
              /\ encodes (readColorRow rowText) p)
         (upserts log)
  /\ subsequence (map p_name (upserts log)) (embedding_inputs log).
Proof.
  intros log.
  destruct (runFullScript_log file maxRows startRow w) as (ts & Hlog & Hts).
  assert (Hu : upserts log = upserts (concat ts)).
  { unfold log. rewrite Hlog. unfold upserts. cbn [flat_map app].
    rewrite flat_map_app. cbn [flat_map]. apply app_nil_r. }
  assert (He : embedding_inputs log = embedding_inputs (concat ts)).
  { unfold log. rewrite Hlog. unfold embedding_inputs. cbn [flat_map app].
    rewrite flat_map_app. cbn [flat_map]. apply app_nil_r. }
  rewrite Hu, He. clear Hu He Hlog log.
  apply (row_traces_of_rows _
           (fun r t =>
              embedding_inputs t =
                (if is_valid_row r then [name (readColorRow r)] else [])
              /\ (upserts t = []
                  \/ exists p, upserts t = [p]
                               /\ is_valid_row r = true
                               /\ encodes (readColorRow r) p))
           (fun total k r t Ht =>
              conj (row_trace_inputs total k r t Ht)
                   (row_trace_upserts total k r t Ht))
           _ _ _ eq_refl) in Hts.
  induction Hts as [|r t rows ts' (Hin & Hup) _ (IHall & IHsub)].
  - split; constructor.
  - cbn [concat]. unfold upserts, embedding_inputs in *.
    rewrite !flat_map_app, map_app. split.
    + apply Forall_app. split.
      * destruct Hup as [Hup | (p & Hup & Hvalid & Henc)]; rewrite Hup;
          constructor; [|constructor].
        exists r. split; [left; reflexivity|]. split; [|exact Henc].
        unfold is_valid_row in Hvalid.
        destruct (validRawColor (readColorRow r)) as [?|[|]];
          [discriminate | reflexivity | discriminate].
      * eapply Forall_impl; [|exact IHall].
        intros p (r' & Hr' & H). exists r'. split; [right; exact Hr' | exact H].
    + rewrite Hin.
      destruct Hup as [Hup | (p & Hup & Hvalid & Henc)]; rewrite Hup.
      * destruct (is_valid_row r); simpl;
          [apply subsequence_skip|]; exact IHsub.
      * rewrite Hvalid. destruct Henc as (Hname & _). simpl. rewrite Hname.
        apply subsequence_keep. exact IHsub.
Qed.

(** X11. A run pauses only after visited positions that are multiples of
    10, in order and at most once after each, every pause announced by its
    log line and lasting 200; a row list of fewer than 10 rows never
    pauses. *)
Theorem pauses_only_at_multiples_of_ten
    (file : jsstring) (maxRows startRow : option nat) (w : W) :
  let colorRows := getColorRows file true maxRows in
  let start := or_default startRow 0 in
  let log :=
    trace_of (runFullScript JSON_stringify clients file maxRows startRow w) in
  (exists paused,
      subsequence paused
        (filter (fun pos => pos mod 10 =? 0)
                (seq (S start) (length colorRows - start)))
      /\ filter is_pause log =
         flat_map (fun pos => [LogAddingDelay pos (length colorRows); Delay 200])
                  paused)
  /\ (length colorRows < 10 -> filter is_pause log = []).
Proof.
  intros colorRows start log.
  destruct (runFullScript_log file maxRows startRow w) as (ts & Hlog & Hts).
  fold colorRows in Hlog, Hts. fold start in Hts.
  assert (Hp : filter is_pause log = filter is_pause (concat ts)).
  { unfold log. rewrite Hlog. simpl. rewrite filter_app. apply app_nil_r. }
  assert (Hex : exists paused,
      subsequence paused
        (filter (fun pos => pos mod 10 =? 0)
                (seq (S start) (length colorRows - start)))
      /\ filter is_pause log =
         flat_map (fun pos => [LogAddingDelay pos (length colorRows); Delay 200])
                  paused).
  { rewrite Hp, <- seq_shift. exact (row_traces_paused _ _ _ Hts). }
  split; [exact Hex|].
  intros Hshort. destruct Hex as (paused & Hsub & Heq).
  rewrite filter_none in Hsub.
  - apply subsequence_nil_r in Hsub. rewrite Heq, Hsub. reflexivity.
  - intros pos Hpos. apply in_seq in Hpos. apply Nat.eqb_neq.
    rewrite Nat.mod_small by lia. lia.
Qed.

(** X12. An offset at or past the end of the row list visits no row: the run
    only logs its opening and closing lines, calls no collaborator and
    leaves the world as it was. *)
Theorem offset_past_the_end_visits_nothing
    (file : jsstring) (maxRows startRow : option nat) (w : W) :
  length (getColorRows file true maxRows) <= or_default startRow 0 ->
  runFullScript JSON_stringify clients file maxRows startRow w =
  (inr tt, w,
   [LogProcessing (length (getColorRows file true maxRows)); LogCompleted]).
Proof.
  intros Hpast. unfold runFullScript, bind.
  unfold emit at 1. cbv beta iota.
  assert (Hloop : forall fuel,
             for_loop JSON_stringify clients (getColorRows file true maxRows)
                      fuel (or_default startRow 0) w = (inr tt, w, [])).
  { intros [|fuel]; [reflexivity|]. cbn [for_loop].
    apply Nat.ltb_ge in Hpast. rewrite Hpast. reflexivity. }
  rewrite Hloop. reflexivity.
Qed.

End Runs.

Lemma offset_past_the_end_visits_nothing_witness :
  runFullScript Sample.stringify Sample.ok_clients
    (Sample.file_of [Sample.red_row; Sample.blue_row]) None (Some 2) 5
  = (inr tt, 5, [LogProcessing 2; LogCompleted]).
Proof.
  apply (offset_past_the_end_visits_nothing _ _ Sample.stringify
           Sample.ok_clients
           (Sample.file_of [Sample.red_row; Sample.blue_row]) None (Some 2) 5).
  vm_compute. lia.
Defined.

Lemma pauses_only_at_multiples_of_ten_witness :
  filter is_pause
    (trace_of (runFullScript Sample.stringify (Sample.flaky_clients 66%N)
       (Sample.file_of (Sample.valid_rows_then 8 [Sample.blue_row]))
       None None 0)) = [].
Proof.
  apply (proj2 (pauses_only_at_multiples_of_ten _ _ Sample.stringify
                  (Sample.flaky_clients 66%N)
                  (Sample.file_of (Sample.valid_rows_then 8 [Sample.blue_row]))
                  None None 0)).
  vm_compute. lia.
Defined.

Lemma one_outcome_per_visited_row_witness :
  length (filter is_outcome
    (trace_of (runFullScript Sample.stringify (Sample.flaky_clients 66%N)
       (Sample.file_of (Sample.valid_rows_then 8
                          [Sample.blue_row; Sample.nameless_row; Sample.red_row]))
       (Some 10) None 0))) <= 10.
Proof.
  exact (proj2 (one_outcome_per_visited_row _ _ Sample.stringify
                  (Sample.flaky_clients 66%N)
                  (Sample.file_of (Sample.valid_rows_then 8
                     [Sample.blue_row; Sample.nameless_row; Sample.red_row]))
                  (Some 10) None 0) 9 eq_refl).
Defined.

(** ** What [prepColorEntry] returns *)

Section Encoder.

Variables (Embedding W : Type).
Variable JSON_stringify : Embedding -> jsstring.
Variable clients : Clients Embedding W.

(** X13. A record returned by [prepColorEntry] is the encoding of a record
    that passed validation: same name and flag, the hex without its marker,
    and the stringified vector of the one provider call it made on the name.
    When it throws instead, either validation failed and nothing was called,
    or the one provider call was rejected and its error is passed on. *)
Theorem prepColorEntry_courses (rawColor : RawColor) (w w' : W)
    (t : list Event) :
  (forall p,
      prepColorEntry JSON_stringify clients rawColor w = (inr p, w', t) ->
      validRawColor rawColor = inr true
      /\ t = [EmbeddingsCreate (name rawColor)]
      /\ encodes rawColor p
      /\ exists v,
           embeddings_create clients (name rawColor) w = (inr v, w')
           /\ embedding_openai_1536 p = JSON_stringify v)
  /\ (forall e,
        prepColorEntry JSON_stringify clients rawColor w = (inl e, w', t) ->
        (t = [] /\ w' = w
         /\ (validRawColor rawColor = inl TypeError /\ e = TypeError
             \/ validRawColor rawColor = inr false
                /\ e = InvalidRawColor rawColor))
        \/ (t = [EmbeddingsCreate (name rawColor)]
            /\ validRawColor rawColor = inr true
            /\ exists x,
                 e = External x
                 /\ embeddings_create clients (name rawColor) w = (inl x, w'))).
Proof.
  split.
  - intros p Hprep.
    destruct (validRawColor rawColor) as [e|[|]] eqn:Hvalid;
      try (rewrite prepColorEntry_unfold, Hvalid in Hprep; discriminate).
    destruct (prepColorEntry_valid Embedding W JSON_stringify clients
                rawColor w Hvalid)
      as [(e & w1 & _ & H) | (v & w1 & p' & Hembed & H & Henc & Hvec)];
      rewrite H in Hprep; [discriminate|].
    injection Hprep as Hp Hw Ht. subst p' w1 t.
    split; [reflexivity|]. split; [reflexivity|]. split; [exact Henc|].
    exists v. split; assumption.
  - intros e Hprep. rewrite prepColorEntry_unfold in Hprep.
    destruct (validRawColor rawColor) as [e0|[|]] eqn:Hvalid.
    + injection Hprep as <- <- <-.
      rewrite (validRawColor_throws_TypeError rawColor e0 Hvalid) in *.
      left. auto.
    + right.
      destruct (embeddings_create clients (name rawColor) w) as [[x|v] w1].
      * injection Hprep as <- <- <-.
        split; [reflexivity|]. split; [reflexivity|]. exists x. auto.
      * destruct (valid_hex_shape rawColor Hvalid) as (h6 & Hhex & _).
        rewrite Hhex in Hprep. discriminate.
    + injection Hprep as <- <- <-. left. auto.
Qed.

End Encoder.

Lemma prepColorEntry_courses_witness :
  validRawColor Sample.red = inr true
  /\ encodes Sample.red Sample.red_prepped.
Proof.
  destruct (proj1 (prepColorEntry_courses _ _ Sample.stringify Sample.ok_clients
                     Sample.red 0 1 [EmbeddingsCreate (VString (lit "Red"))])
              Sample.red_prepped eq_refl) as (Hvalid & _ & Henc & _).
  split; assumption.
Defined.

(** ** The batch around a failing row *)

Lemma threaded_Forall2 (W : Type)
    (step : nat -> W -> (Err + unit) * W * list Event)
    (P : nat -> list Event -> Prop) :
  (forall i w0 w1 t, step i w0 = (inr tt, w1, t) -> P i t) ->
  forall indices w w' ts,
    threaded step indices w w' ts -> Forall2 P indices ts.
Proof.
  intros HP indices w w' ts H.
  induction H as [|i indices w0 w1 w2 t ts Hstep _ IH]; constructor.
  - exact (HP i w0 w1 t Hstep).
  - exact IH.
Qed.

Lemma row_trace_pause_rule (total i : nat) (rowText : jsstring)
    (t : list Event) :
  row_trace total i rowText t -> pause_rule total i t.
Proof.
  intros Ht. unfold pause_rule.
  destruct Ht; (split; [intros Hmod | intros Hmod Hcaught]);
    try reflexivity; try discriminate Hcaught.
  all: try (apply Nat.eqb_neq in Hmod; cbn [app filter is_pause];
            unfold pause_events; rewrite Hmod; reflexivity).
  all: apply Nat.eqb_eq in Hmod; unfold pause_events; rewrite Hmod;
    eexists; split; reflexivity.
Qed.

(** Pauses of the rows of a log in which no turn ended in the [catch]. *)
Lemma pauses_of_uncaught_rows (total : nat) (indices : list nat)
    (ts : list (list Event)) :
  Forall2 (pause_rule total) indices ts ->
  existsb is_row_error (concat ts) = false ->
  filter is_pause (concat ts) =
  flat_map (fun i => pause_events i total) indices.
Proof.
  induction 1 as [|i t indices ts (Hnot & Hten) _ IH]; intros Hclean;
    [reflexivity|].
  cbn [concat] in Hclean. rewrite existsb_app in Hclean.
  apply orb_false_iff in Hclean as [Ht Hts].
  cbn [concat flat_map]. rewrite filter_app, (IH Hts). f_equal.
  unfold pause_events. destruct ((i + 1) mod 10 =? 0) eqn:Hmod.
  - apply Nat.eqb_eq in Hmod.
    destruct (Hten Hmod Ht) as (t0 & -> & Ht0).
    rewrite filter_app, Ht0. reflexivity.
  - apply Nat.eqb_neq in Hmod. exact (Hnot Hmod).
Qed.

Section Isolation.

Variables (Embedding W : Type).
Variable JSON_stringify : Embedding -> jsstring.
Variable clients : Clients Embedding W.

Lemma loop_body_out_of_range (colorRows : list jsstring) (i : nat) (w : W) :
  nth_error colorRows i = None ->
  loop_body JSON_stringify clients colorRows i w =
  (inr tt, w, [LogRowError (i + 1) TypeError]).
Proof.
  intros Hrow. unfold loop_body, try_catch, bind. rewrite Hrow. reflexivity.
Qed.



Lemma loop_body_pause_rule (colorRows : list jsstring) (i : nat)
    (w0 w1 : W) (t : list Event) :
  loop_body JSON_stringify clients colorRows i w0 = (inr tt, w1, t) ->
  pause_rule (length colorRows) i t.
Proof.
  intros Hbody. destruct (nth_error colorRows i) as [rowText|] eqn:Hrow.
  - destruct (loop_body_spec Embedding W JSON_stringify clients
                colorRows i rowText w0 Hrow) as (w' & t' & H & Ht).
    rewrite H in Hbody. injection Hbody as _ <-.
    exact (row_trace_pause_rule _ _ _ _ Ht).
  - rewrite (loop_body_out_of_range colorRows i w0 Hrow) in Hbody.
    injection Hbody as _ <-. split; [reflexivity | discriminate].
Qed.

(** With enough fuel the loop runs the turns of all indices from [i] to the
    end of the row list, one after the other. *)
Lemma for_loop_threaded (colorRows : list jsstring) (fuel : nat) :
  forall (i : nat) (w : W),
    length colorRows - i <= fuel ->
    exists w' ts,
      for_loop JSON_stringify clients colorRows fuel i w
        = (inr tt, w', concat ts)
      /\ threaded (loop_body JSON_stringify clients colorRows)
                  (seq i (length colorRows - i)) w w' ts.
Proof.
  induction fuel as [|fuel IH]; intros i w Hfuel.
  - exists w, []. split; [reflexivity|].
    replace (length colorRows - i) with 0 by lia. constructor.
  - cbn [for_loop]. destruct (i <? length colorRows) eqn:Hlt.
    + apply Nat.ltb_lt in Hlt.
      destruct (loop_body_returns Embedding W JSON_stringify clients
                  colorRows i w) as (w1 & t & Hbody).
      destruct (IH (S i) w1 ltac:(lia)) as (w2 & ts & Hloop & Hts).
      exists w2, (t :: ts). split.
      * unfold bind. rewrite Hbody, Hloop. reflexivity.
      * replace (length colorRows - i) with (S (length colorRows - S i))
          by lia.
        cbn [seq]. exact (threaded_cons _ _ Hbody Hts).
    + apply Nat.ltb_ge in Hlt. exists w, []. split; [reflexivity|].
      replace (length colorRows - i) with 0 by lia. constructor.
Qed.

Lemma runFullScript_threaded (file : jsstring) (maxRows startRow : option nat)
    (w : W) :
  exists w' ts,
    runFullScript JSON_stringify clients file maxRows startRow w =
      (inr tt, w',
       LogProcessing (length (getColorRows file true maxRows))
         :: concat ts ++ [LogCompleted])
    /\ threaded
         (loop_body JSON_stringify clients (getColorRows file true maxRows))
         (seq (or_default startRow 0)
              (length (getColorRows file true maxRows) - or_default startRow 0))
         w w' ts.
Proof.
  destruct (for_loop_threaded (getColorRows file true maxRows)
              (length (getColorRows file true maxRows))
              (or_default startRow 0) w ltac:(lia))
    as (w' & ts & Hloop & Hts).
  exists w', ts. split; [|exact Hts].
  unfold runFullScript, bind.
  unfold emit at 1. cbv beta iota. rewrite Hloop. reflexivity.
Qed.


(** C2, as amended.  Rows are counted by their position in the row list
    (from 1, the offset included, whatever became of the rows before).  In
    the trace of a run, made of the traces of the turns of the visited rows
    in order, the turn of a row at a position that is not a multiple of 10
    holds no pause, and the turn of a row at a multiple of 10 that did not
    end in the [catch] is closed by its announced pause of 200, its only
    one, before the next turn starts. *)
Theorem pause_closes_each_tenth_turn
    (file : jsstring) (maxRows startRow : option nat) (w : W) :
  let colorRows := getColorRows file true maxRows in
  let start := or_default startRow 0 in
  exists w' ts,
    runFullScript JSON_stringify clients file maxRows startRow w =
      (inr tt, w',
       LogProcessing (length colorRows) :: concat ts ++ [LogCompleted])
    /\ threaded (loop_body JSON_stringify clients colorRows)
                (seq start (length colorRows - start)) w w' ts
    /\ Forall2 (pause_rule (length colorRows))
               (seq start (length colorRows - start)) ts.
Proof.
  intros colorRows start.
  destruct (runFullScript_threaded file maxRows startRow w)
    as (w' & ts & Hrun & Hts).
  exists w', ts. split; [exact Hrun|]. split; [exact Hts|].
  exact (threaded_Forall2 _ _ (pause_rule (length colorRows))
           (loop_body_pause_rule colorRows) _ _ _ _ Hts).
Qed.

End Isolation.



Lemma pause_closes_each_tenth_turn_witness :
  filter is_pause
    (trace_of (runFullScript Sample.stringify Sample.ok_clients
                 (Sample.file_of (repeat Sample.red_row 25)) None None 0))
  = [LogAddingDelay 10 25; Delay 200; LogAddingDelay 20 25; Delay 200].
Proof.
  pose proof (pause_closes_each_tenth_turn _ _ Sample.stringify
                Sample.ok_clients
                (Sample.file_of (repeat Sample.red_row 25)) None None 0) as H.
  cbv zeta in H. destruct H as (w' & ts & Hrun & _ & Hrule).
  assert (Hclean : existsb is_row_error
            (trace_of (runFullScript Sample.stringify Sample.ok_clients
               (Sample.file_of (repeat Sample.red_row 25)) None None 0))
            = false) by (vm_compute; reflexivity).
  unfold trace_of in Hclean |- *. rewrite Hrun in Hclean |- *.
  cbn [snd existsb is_row_error orb] in Hclean.
  rewrite existsb_app in Hclean. apply orb_false_iff in Hclean as [Hclean _].
  cbn [snd filter is_pause]. rewrite filter_app. cbn [filter is_pause].
  rewrite app_nil_r.
  rewrite (pauses_of_uncaught_rows _ _ _ Hrule Hclean).
  vm_compute. reflexivity.
Defined.

(** Of 25 rows only the tenth has no name: nothing is said of a pause after
    it, and the pause after row 20 is taken. *)
Example pause_after_row_20_when_row_10_is_caught :
  filter (fun ev => is_pause ev || is_row_error ev)
    (trace_of (runFullScript Sample.stringify Sample.ok_clients
       (Sample.file_of (Sample.valid_rows_then 9
                          (Sample.nameless_row :: repeat Sample.red_row 15)))
       None None 0))
  = [LogRowError 10 (InvalidRawColor (readColorRow Sample.nameless_row));
     LogAddingDelay 20 25; Delay 200].
Proof. vm_compute; reflexivity. Qed.
